(** * RagBasedResearchAssistant: the paper fetcher and the survey builder

    A shallow embedding of [backend.py] ([fetch_arxiv_papers],
    [build_survey_text]) and of the pipeline of [app.py]'s [main], with the
    properties the specification states about them.

    Modelling choices.
    - A Python [str] is a Rocq [string]: the UTF-8 text of the Python string.
      Every delimiter of the source is ASCII, so an occurrence of a delimiter
      in the bytes is an occurrence in the code points and conversely.
    - [str.strip] and [int] are modelled on ASCII text, where they are exact;
      white space and decimal digits outside ASCII are not recognised, and
      the interpreter's configurable limit on the number of digits [int]
      accepts is left out.
    - A raised exception is a value of [exn]; code that may raise returns a
      [result].
    - The network and the language model are oracles; the calls made to them
      are recorded in a [World], so that "called once" can be stated. *)

From Stdlib Require Import String Ascii List ZArith Lia Bool DecimalString.
Import ListNotations.
Open Scope string_scope.

(** ** Exceptions *)

Inductive exn : Type :=
| IndexError
| ValueError
| KeyError (key : string)
| Foreign (name : string).   (* raised by requests or by the model client *)

Inductive result (A : Type) : Type :=
| Ok (a : A)
| Raise (e : exn).

Arguments Ok {A} a.
Arguments Raise {A} e.

Definition rbind {A B : Type} (r : result A) (k : A -> result B) : result B :=
  match r with
  | Ok a => k a
  | Raise e => Raise e
  end.

Declare Scope result_scope.
Delimit Scope result_scope with result.
Notation "x <- r ;; k" := (rbind r (fun x => k))
  (at level 61, r at next level, right associativity) : result_scope.

(** ** The Python built-ins the source uses *)

Module Py.

(** [s.startswith(p)], returning what follows the prefix. *)
Fixpoint strip_prefix (p s : string) : option string :=
  match p, s with
  | EmptyString, _ => Some s
  | String a p', String b s' =>
      if Ascii.eqb a b then strip_prefix p' s' else None
  | String _ _, EmptyString => None
  end.

(** [s.partition(sep)]: the text before and after the leftmost occurrence
    of [sep], or [None] when there is none. *)
Fixpoint find (sep s : string) : option (string * string) :=
  match strip_prefix sep s with
  | Some rest => Some (EmptyString, rest)
  | None =>
      match s with
      | EmptyString => None
      | String c s' =>
          match find sep s' with
          | Some (a, b) => Some (String c a, b)
          | None => None
          end
      end
  end.

(** [sep in s]. *)
Definition contains (sep s : string) : bool :=
  match find sep s with
  | Some _ => true
  | None => false
  end.

(** [s.split(sep)] for a non-empty [sep] (every separator of the source is a
    non-empty literal): the leftmost occurrences, never overlapping, cut
    [s].  The fuel is the length of [s]; each cut consumes at least one
    character (lemma [split_eq]). *)
Fixpoint split_fuel (fuel : nat) (sep s : string) : list string :=
  match fuel with
  | O => [s]
  | S n =>
      match find sep s with
      | None => [s]
      | Some (a, b) => a :: split_fuel n sep b
      end
  end.

Definition split (sep s : string) : list string :=
  split_fuel (String.length s) sep s.

(** [l[i]] for [i >= 0]. *)
Definition index {A : Type} (l : list A) (i : nat) : result A :=
  match nth_error l i with
  | Some x => Ok x
  | None => Raise IndexError
  end.

(** [l[:k]], also for a negative [k]. *)
Definition slice_to {A : Type} (l : list A) (k : Z) : list A :=
  if (0 <=? k)%Z then firstn (Z.to_nat k) l
  else firstn (List.length l - Z.to_nat (- k)) l.

(** [str.isspace] on one ASCII character: TAB, LF, VT, FF, CR, FS, GS, RS,
    US and the space. *)
Definition is_space (c : ascii) : bool :=
  let n := nat_of_ascii c in
  (((9 <=? n) && (n <=? 13)) || ((28 <=? n) && (n <=? 32)))%nat.

Fixpoint lstrip (s : string) : string :=
  match s with
  | EmptyString => EmptyString
  | String c s' => if is_space c then lstrip s' else s
  end.

Fixpoint rstrip (s : string) : string :=
  match s with
  | EmptyString => EmptyString
  | String c s' =>
      match rstrip s' with
      | EmptyString => if is_space c then EmptyString else String c EmptyString
      | r => String c r
      end
  end.

(** [s.strip()]. *)
Definition strip (s : string) : string := rstrip (lstrip s).

(** The white space [int] skips: TAB, LF, VT, FF, CR and the space (FS..US
    are white space for [strip] but not for [int]). *)
Definition is_int_space (c : ascii) : bool :=
  let n := nat_of_ascii c in
  (((9 <=? n) && (n <=? 13)) || (n =? 32))%nat.

Definition digit_of (c : ascii) : option Z :=
  let n := nat_of_ascii c in
  if ((48 <=? n) && (n <=? 57))%nat then Some (Z.of_nat (n - 48)) else None.

Fixpoint all_int_space (s : string) : bool :=
  match s with
  | EmptyString => true
  | String c s' => is_int_space c && all_int_space s'
  end.

(** What may follow a digit: more digits, each preceded by at most one
    underscore, then white space to the end. *)
Fixpoint digits_from (acc : Z) (s : string) : result Z :=
  match s with
  | EmptyString => Ok acc
  | String c s' =>
      match digit_of c with
      | Some d => digits_from (10 * acc + d) s'
      | None =>
          if Ascii.eqb c "_" then
            match s' with
            | EmptyString => Raise ValueError
            | String c' s'' =>
                match digit_of c' with
                | Some d => digits_from (10 * acc + d) s''
                | None => Raise ValueError
                end
            end
          else if all_int_space (String c s') then Ok acc
          else Raise ValueError
      end
  end.

Definition unsigned_from (s : string) : result Z :=
  match s with
  | EmptyString => Raise ValueError
  | String c s' =>
      match digit_of c with
      | Some d => digits_from d s'
      | None => Raise ValueError
      end
  end.

Fixpoint skip_int_space (s : string) : string :=
  match s with
  | EmptyString => EmptyString
  | String c s' => if is_int_space c then skip_int_space s' else s
  end.

(** [int(s)] in base ten; [ValueError] when [s] is no integer literal. *)
Definition int (s : string) : result Z :=
  match skip_int_space s with
  | EmptyString => Raise ValueError
  | String c s' =>
      if Ascii.eqb c "-" then rbind (unsigned_from s') (fun n => Ok (- n)%Z)
      else if Ascii.eqb c "+" then unsigned_from s'
      else unsigned_from (String c s')
  end.

(** [str(n)] for an integer. *)
Definition str_of_int (n : Z) : string :=
  NilZero.string_of_int (Z.to_int n).

(** [sep.join(l)]. *)
Fixpoint join (sep : string) (l : list string) : string :=
  match l with
  | [] => EmptyString
  | x :: r =>
      match r with
      | [] => x
      | _ :: _ => x ++ sep ++ join sep r
      end
  end.

End Py.

Definition nl : string := String "010" EmptyString.

(** ** The data model *)

(** The [metadata] dict of a document.  [fetch_arxiv_papers] writes the four
    keys; [build_survey_text] reads two of them with [dict.get] and a
    default, so a key may be absent. *)
Record Metadata : Type := {
  title : option string;
  link : option string;
  year : option Z;
  authors : option (list string)
}.

Record Document : Type := {
  page_content : string;
  metadata : Metadata
}.

(** The message a chat model returns; the source reads its [content]. *)
Record AIMessage : Type := { content : string }.

(** The arguments of [requests.get]. *)
Inductive param : Type :=
| PStr (s : string)
| PInt (n : Z).

Record Request : Type := {
  url : string;
  params : list (string * param);
  timeout : Z
}.

(** The calls made so far, oldest first. *)
Record World : Type := {
  requests_log : list Request;
  llm_log : list string
}.

Definition M (A : Type) : Type := World -> result A * World.

Definition ret {A : Type} (a : A) : M A := fun w => (Ok a, w).

Definition bind {A B : Type} (m : M A) (k : A -> M B) : M B :=
  fun w =>
    match m w with
    | (Ok a, w') => k a w'
    | (Raise e, w') => (Raise e, w')
    end.

Definition lift {A : Type} (r : result A) : M A := fun w => (r, w).

Declare Scope io_scope.
Delimit Scope io_scope with io.
Notation "x <- m ;; k" := (bind m (fun x => k))
  (at level 61, m at next level, right associativity) : io_scope.

(** ** backend.py, 1: fetch papers from arXiv *)

(** [text.split(open)[1].split(close)[0].strip()]. *)
Definition field (open close text : string) : result string :=
  (piece <- Py.index (Py.split open text) 1 ;;
   value <- Py.index (Py.split close piece) 0 ;;
   Ok (Py.strip value))%result.

(** Lines 31 to 35: title, summary, link and year, in this order. *)
Definition required_fields (entry : string)
  : result (string * string * string * Z) :=
  (title <- field "<title>" "</title>" entry ;;
   summary <- field "<summary>" "</summary>" entry ;;
   link <- field "<id>" "</id>" entry ;;
   published <- field "<published>" "</published>" entry ;;
   prefix <- Py.index (Py.split "-" published) 0 ;;
   year <- Py.int prefix ;;
   Ok (title, summary, link, year))%result.

(** Lines 37 to 40: the loop over the author blocks, appending each name. *)
Fixpoint author_loop (parts : list string) (authors : list string)
  : result (list string) :=
  match parts with
  | [] => Ok authors
  | part :: rest =>
      (name <- field "<name>" "</name>" part ;;
       author_loop rest (authors ++ [name])%list)%result
  end.

(** The body of the [try]: one entry chunk to one document. *)
Definition parse_entry (entry : string) : result Document :=
  (fields <- required_fields entry ;;
   let '(title, summary, link, year) := fields in
   authors <- author_loop (skipn 1 (Py.split "<author>" entry)) [] ;;
   Ok {| page_content := summary;
         metadata := {| title := Some title; link := Some link;
                        year := Some year; authors := Some authors |} |})%result.

(** Lines 29 to 49: the loop over the chunks; [except Exception: continue]
    drops the chunk whose body raised. *)
Fixpoint entry_loop (entries : list string) (papers : list Document)
  : list Document :=
  match entries with
  | [] => papers
  | entry :: rest =>
      match parse_entry entry with
      | Ok doc => entry_loop rest (papers ++ [doc])%list
      | Raise _ => entry_loop rest papers
      end
  end.

(** [text.split("<entry>")[1:]]. *)
Definition entries_of (text : string) : list string :=
  skipn 1 (Py.split "<entry>" text).

(** Lines 26 to 51: from the response text to the papers. *)
Definition parse_response (text : string) : list Document :=
  entry_loop (entries_of text) [].

Definition arxiv_request (query : string) (max_results : Z) (sort_by : string)
  : Request :=
  {| url := "http://export.arxiv.org/api/query";
     params := [ ("search_query", PStr ("all:" ++ query));
                 ("start", PInt 0);
                 ("max_results", PInt max_results);
                 ("sortBy", PStr sort_by);
                 ("sortOrder", PStr "descending") ];
     timeout := 30 |}.

(** [requests.get(...)] followed by [response.text]: the oracle gives the
    body, or the exception the call raises. *)
Definition requests_get (network : World -> Request -> result string)
  (r : Request) : M string :=
  fun w =>
    (network w r,
     {| requests_log := (requests_log w ++ [r])%list; llm_log := llm_log w |}).

Definition fetch_arxiv_papers (network : World -> Request -> result string)
  (query : string) (max_results : Z) (sort_by : string)
  : M (list Document) :=
  (text <- requests_get network (arxiv_request query max_results sort_by) ;;
   ret (parse_response text))%io.

(** ** backend.py, 2: the literature survey *)

Definition template : string := "
You are an assistant that writes **professional literature survey drafts**.

Organize the information into the following sections:
1. **Background** → Provide a concise overview of the research area.
2. **Key Themes** → Summarize recurring ideas/findings as bullet points.
3. **Research Gaps** → Highlight missing, underexplored, or inconsistent areas.
4. **References** → List titles with year (from the provided metadata). Do not invent references.

Papers:
{papers}

Research Topic: {query}
".

Fixpoint lookup (key : string) (env : list (string * string)) : result string :=
  match env with
  | [] => Raise (KeyError key)
  | (k, v) :: rest => if String.eqb k key then Ok v else lookup key rest
  end.

(** [PromptTemplate.format]: every [{name}] of the template is replaced by
    the value of [name]; a value is inserted as it is.  (The template of the
    source has no other brace.) *)
Fixpoint format_fuel (fuel : nat) (t : string) (env : list (string * string))
  : result string :=
  match fuel with
  | O => Ok t
  | S n =>
      match Py.find "{" t with
      | None => Ok t
      | Some (lit, rest) =>
          match Py.find "}" rest with
          | None => Raise ValueError
          | Some (name, rest') =>
              (v <- lookup name env ;;
               r <- format_fuel n rest' env ;;
               Ok (lit ++ v ++ r))%result
          end
      end
  end.

Definition format (t : string) (env : list (string * string)) : result string :=
  format_fuel (String.length t) t env.

(** [d.metadata.get('title','(no title)')]. *)
Definition get_title (d : Document) : string :=
  match title (metadata d) with
  | Some t => t
  | None => "(no title)"
  end.

(** [d.metadata.get('year','')], as the f-string prints it. *)
Definition get_year (d : Document) : string :=
  match year (metadata d) with
  | Some y => Py.str_of_int y
  | None => ""
  end.

(** The f-string of line 79. *)
Definition block (d : Document) : string :=
  "Title: " ++ get_title d ++ " (" ++ get_year d ++ ")" ++ nl
  ++ "Summary: " ++ page_content d.

(** Lines 78 to 80. *)
Definition papers_text (docs : list Document) : string :=
  Py.join (nl ++ nl) (map block docs).

(** [chain.invoke]: the template is filled in and the model is called with
    the text. *)
Definition llm_invoke (llm : World -> string -> result AIMessage)
  (prompt : string) : M AIMessage :=
  fun w =>
    (llm w prompt,
     {| requests_log := requests_log w;
        llm_log := (llm_log w ++ [prompt])%list |}).

Definition chain_invoke (llm : World -> string -> result AIMessage)
  (env : list (string * string)) : M AIMessage :=
  (prompt <- lift (format template env) ;;
   llm_invoke llm prompt)%io.

Definition build_survey_text (query : string) (docs : list Document)
  (llm : World -> string -> result AIMessage) : M string :=
  (result <- chain_invoke llm [("papers", papers_text docs); ("query", query)] ;;
   ret (content result))%io.

(** ** app.py: the pipeline of [main] once the button is pressed *)

(** The model client is a parameter: its construction at line 85 and the two
    exports that follow the survey are not part of this pipeline. *)

Inductive page : Type :=
| NoPapersFound                 (* st.error("No papers found.") *)
| SurveyDraft (retrieved : nat) (survey : string).

Definition main (network : World -> Request -> result string)
  (llm : World -> string -> result AIMessage)
  (topic : string) (n_fetch top_k : Z) (sort_by : string) : M page :=
  (papers <- fetch_arxiv_papers network topic n_fetch sort_by ;;
   match papers with
   | [] => ret NoPapersFound
   | _ :: _ =>
       survey <- build_survey_text topic (Py.slice_to papers top_k) llm ;;
       ret (SurveyDraft (List.length papers) survey)
   end)%io.

(** ** Vocabulary of the statements *)

Definition raises {A : Type} (r : result A) : Prop := exists e, r = Raise e.

(** The text of [s] before the leftmost [sep]; all of [s] when there is
    none. *)
Definition upto (sep s : string) : string :=
  match Py.find sep s with
  | Some (a, _) => a
  | None => s
  end.

(** As the specification words it: the characters preceding the first
    [-]. *)
Fixpoint before_first_dash (s : string) : string :=
  match s with
  | EmptyString => EmptyString
  | String c s' =>
      if Ascii.eqb c "-" then EmptyString else String c (before_first_dash s')
  end.

Definition is_ok {A : Type} (r : result A) : bool :=
  match r with
  | Ok _ => true
  | Raise _ => false
  end.

(** An entry block of a well-formed response: the four required fields are
    there, the published date starts with an integer, and every author block
    names its author. *)
Definition well_formed_entry (entry : string) : bool :=
  Py.contains "<title>" entry && Py.contains "<summary>" entry
  && Py.contains "<id>" entry && Py.contains "<published>" entry
  && is_ok (published <- field "<published>" "</published>" entry ;;
            Py.int (before_first_dash published))%result
  && forallb (Py.contains "<name>") (skipn 1 (Py.split "<author>" entry)).

(** The document line 43 builds. *)
Definition document (t s l : string) (y : Z) (a : list string) : Document :=
  {| page_content := s;
     metadata := {| title := Some t; link := Some l;
                    year := Some y; authors := Some a |} |}.

Definition empty_world : World := {| requests_log := []; llm_log := [] |}.

(** A response text: a preamble, then each chunk behind the entry marker. *)
Definition response_of (preamble : string) (chunks : list string) : string :=
  preamble ++ fold_right (fun chunk text => "<entry>" ++ chunk ++ text)
                         EmptyString chunks.

(** Sample responses.  [feed3] has three entries, the second without a
    published date; [feed2] is [feed3] without that entry. *)
Definition entry_a : string :=
  "<id>http://arxiv.org/abs/1</id><published>2023-05-10T00:00:00Z</published><title> Graphene anodes </title><summary>S1</summary><author><name>X</name></author><author><name>Y</name></author></entry>".

Definition entry_b : string :=
  "<id>http://arxiv.org/abs/2</id><title>B</title><summary>S2</summary></entry>".

Definition entry_c : string :=
  "<id>http://arxiv.org/abs/3</id><published>2021-01-01T00:00:00Z</published><title>C</title><summary>S3</summary></entry></feed>".

Definition preamble : string := "<feed><title>arXiv Query</title>".

Definition feed3 : string :=
  response_of preamble [entry_a; entry_b; entry_c].

Definition feed2 : string := response_of preamble [entry_a; entry_c].

(** A chunk with two [<title>] and no [</title>], and a chunk whose author
    block has no [<name>]. *)
Definition entry_two_titles : string :=
  "<title>A<title>B<summary>S</summary><id>I</id><published>2020-01-01</published>".

Definition entry_unnamed_author : string :=
  "<title>T</title><summary>S</summary><id>I</id><published>2020-01-01</published><author>anonymous</author>".

Definition entry_bad_year : string :=
  "<title>T</title><summary>S</summary><id>I</id><published>May 2020</published>".

(** A network that answers every request with [text], and one that times
    out. *)
Definition answers (text : string) : World -> Request -> result string :=
  fun _ _ => Ok text.

Definition times_out : World -> Request -> result string :=
  fun _ _ => Raise (Foreign "requests.exceptions.ConnectTimeout").

(** The prompt, as the specification describes it: the instructions, the
    papers section, a blank line, and the topic. *)
Definition prompt_head : string := "
You are an assistant that writes **professional literature survey drafts**.

Organize the information into the following sections:
1. **Background** → Provide a concise overview of the research area.
2. **Key Themes** → Summarize recurring ideas/findings as bullet points.
3. **Research Gaps** → Highlight missing, underexplored, or inconsistent areas.
4. **References** → List titles with year (from the provided metadata). Do not invent references.

Papers:
".

Definition prompt_of (papers query : string) : string :=
  prompt_head ++ papers ++ nl ++ nl ++ "Research Topic: " ++ query ++ nl.

(** The papers section, as the specification describes it: a block of two
    lines for the first record, and for each later record a blank line and
    its block. *)
Definition spec_block (record : string * Z * string) : string :=
  let '(t, y, s) := record in
  "Title: " ++ t ++ " (" ++ Py.str_of_int y ++ ")" ++ nl ++ "Summary: " ++ s.

Definition spec_section (records : list (string * Z * string)) : string :=
  match records with
  | [] => EmptyString
  | first :: later =>
      fold_left (fun text record => text ++ nl ++ nl ++ spec_block record)
                later (spec_block first)
  end.

(** Title, year and summary of a document that has a title and a year. *)
Definition record_view (d : Document) : option (string * Z * string) :=
  match title (metadata d), year (metadata d) with
  | Some t, Some y => Some (t, y, page_content d)
  | _, _ => None
  end.

(** What the caller gets for the model's answer. *)
Definition answer_text (answer : result AIMessage) : result string :=
  match answer with
  | Ok message => Ok (content message)
  | Raise e => Raise e
  end.

Definition after_llm_call (w : World) (prompt : string) : World :=
  {| requests_log := requests_log w;
     llm_log := (llm_log w ++ [prompt])%list |}.

(** A model that echoes, and one that is out of quota. *)
Definition echo : World -> string -> result AIMessage :=
  fun _ prompt => Ok {| content := "Survey of: " ++ prompt |}.

Definition out_of_quota : World -> string -> result AIMessage :=
  fun _ _ => Raise (Foreign "openai.RateLimitError").

Fixpoint has_char (c : ascii) (s : string) : bool :=
  match s with
  | EmptyString => false
  | String c' s' => Ascii.eqb c c' || has_char c s'
  end.

Definition after_request (w : World) (r : Request) : World :=
  {| requests_log := (requests_log w ++ [r])%list; llm_log := llm_log w |}.

(** ** app.py: the exports *)

(** The truth value of a string: [if s:]. *)
Definition truthy (s : string) : bool :=
  match s with
  | EmptyString => false
  | String _ _ => true
  end.

(** What goes into the flow of a PDF. *)
Inductive flowable (P : Type) : Type :=
| FParagraph (p : P)
| FSpacer (width height : Z).

Arguments FParagraph {P} p.
Arguments FSpacer {P} width height.

(** reportlab and python-docx are outside the repository: building a
    paragraph, laying out a flow, adding a paragraph to a document and
    saving it are oracles, which give a value or raise. *)
Section Exports.

Variable paragraph : Type.
Variable Paragraph : string -> string -> result paragraph.
Variable doc_build : list (flowable paragraph) -> result string.

(** Lines 26 to 29 of app.py. *)
Fixpoint pdf_loop (lines : list string) (flow : list (flowable paragraph))
  : result (list (flowable paragraph)) :=
  match lines with
  | [] => Ok flow
  | line :: rest =>
      if truthy (Py.strip line) then
        (p <- Paragraph (Py.strip line) "Normal" ;;
         pdf_loop rest ((flow ++ [FParagraph p]) ++ [FSpacer 1 8])%list)%result
      else pdf_loop rest flow
  end.

(** The bytes of the buffer, or the exception raised on the way. *)
Definition export_to_pdf (text : string) : result string :=
  (flow <- pdf_loop (Py.split nl text) [] ;;
   doc_build flow)%result.

Variable docx : Type.
Variable docx_new : docx.
Variable add_paragraph : docx -> string -> result docx.
Variable save : docx -> result string.

(** Lines 41 to 43 of app.py. *)
Fixpoint word_loop (lines : list string) (doc : docx) : result docx :=
  match lines with
  | [] => Ok doc
  | line :: rest =>
      if truthy (Py.strip line) then
        (doc' <- add_paragraph doc (Py.strip line) ;;
         word_loop rest doc')%result
      else word_loop rest doc
  end.

Definition export_to_word (text : string) : result string :=
  (doc <- word_loop (Py.split nl text) docx_new ;;
   save doc)%result.

End Exports.

(** ** Vocabulary of the further properties *)

(** The texts of the paragraphs of an export: the lines that are not blank,
    stripped. *)
Definition texts_of_lines (lines : list string) : list string :=
  map Py.strip (filter (fun line => truthy (Py.strip line)) lines).

Definition paragraph_texts (text : string) : list string :=
  texts_of_lines (Py.split nl text).

(** Each element in turn, until one raises. *)
Fixpoint traverse {A B : Type} (f : A -> result B) (l : list A)
  : result (list B) :=
  match l with
  | [] => Ok []
  | x :: r => (y <- f x ;; ys <- traverse f r ;; Ok (y :: ys))%result
  end.

Fixpoint add_all {D : Type} (add : D -> string -> result D) (doc : D)
  (texts : list string) : result D :=
  match texts with
  | [] => Ok doc
  | t :: r => (doc' <- add doc t ;; add_all add doc' r)%result
  end.

Fixpoint all_space (s : string) : bool :=
  match s with
  | EmptyString => true
  | String c s' => Py.is_space c && all_space s'
  end.

(** The record of a chunk, in a list: nothing when the chunk raises. *)
Definition record_of_chunk (entry : string) : list Document :=
  match parse_entry entry with
  | Ok doc => [doc]
  | Raise _ => []
  end.

(** Oracles that record what they are given. *)
Definition keep_text : string -> string -> result string :=
  fun text _ => Ok text.

Definition keep_added : list string -> string -> result (list string) :=
  fun doc text => Ok (doc ++ [text])%list.

Definition show_flow : list (flowable string) -> result string :=
  fun flow =>
    Ok (Py.join "|" (map (fun f => match f with
                                   | FParagraph p => p
                                   | FSpacer _ _ => "-"
                                   end) flow)).

Definition show_doc : list string -> result string :=
  fun doc => Ok (Py.join "|" doc).

Definition survey_sample : string :=
  "  Background  " ++ nl ++ nl ++ "   " ++ nl ++ "Key Themes" ++ nl.

(** A field value without white space around it and without its own
    delimiters. *)
Definition clean (open close value : string) : Prop :=
  Py.lstrip value = value /\ Py.rstrip value = value /\
  Py.contains open value = false /\ Py.contains close value = false.

(** ** Well-formed responses, described without the parser *)

(** The record of a paper, as the specification has it. *)
Record PaperRecord : Type := {
  pr_title : string;
  pr_summary : string;
  pr_link : string;
  publishedYear : Z;
  pr_authors : list string
}.

Definition document_of (r : PaperRecord) : Document :=
  document (pr_title r) (pr_summary r) (pr_link r) (publishedYear r)
           (pr_authors r).

(** A field is present in a chunk: at the first start delimiter stand the
    value and the end delimiter, and the value holds no [<] (markup in a
    value is escaped). *)
Definition holds (open close value chunk : string) : Prop :=
  exists before after,
    chunk = before ++ open ++ value ++ close ++ after /\
    Py.contains open before = false /\
    has_char "<" value = false.

(** A head, then each block behind the separator. *)
Definition assemble (sep head : string) (blocks : list string) : string :=
  head ++ fold_right (fun block text => sep ++ block ++ text)
                     EmptyString blocks.

(** The chunk is the entry block of the record: the four required fields
    are present with the record's title, summary and link around which white
    space may stand, the published date starts with the record's year, and
    the author blocks hold the record's authors, each in a name element. *)
Definition describes (chunk : string) (r : PaperRecord) : Prop :=
  (exists t, holds "<title>" "</title>" t chunk /\ pr_title r = Py.strip t) /\
  (exists s,
      holds "<summary>" "</summary>" s chunk /\ pr_summary r = Py.strip s) /\
  (exists l, holds "<id>" "</id>" l chunk /\ pr_link r = Py.strip l) /\
  (exists p,
      holds "<published>" "</published>" p chunk /\
      Py.int (before_first_dash (Py.strip p)) = Ok (publishedYear r)) /\
  (exists head bodies names,
      chunk = assemble "<author>" head bodies /\
      Py.contains "<author>" head = false /\
      Forall2 (fun body name =>
                 Py.contains "<author>" body = false /\
                 holds "<name>" "</name>" name body) bodies names /\
      pr_authors r = map Py.strip names).

Definition record_a : PaperRecord :=
  {| pr_title := "Graphene anodes"; pr_summary := "S1";
     pr_link := "http://arxiv.org/abs/1"; publishedYear := 2023;
     pr_authors := ["X"; "Y"] |}.

Definition record_c : PaperRecord :=
  {| pr_title := "C"; pr_summary := "S3";
     pr_link := "http://arxiv.org/abs/3"; publishedYear := 2021;
     pr_authors := [] |}.

(** * Properties *)

(** ** The built-ins on sample inputs *)

Example split_examples :
  Py.split "<entry>" "a<entry>b<entry>" = ["a"; "b"; ""] /\
  Py.split "aa" "aaaa" = [""; ""; ""] /\
  Py.split "-" "2023" = ["2023"] /\
  Py.split "x" "" = [""].
Proof. repeat split. Qed.

Example int_examples :
  map Py.int ["2023"; " 2023 "; "+2023"; "-5"; "2_023"; "0123"]
  = [Ok 2023; Ok 2023; Ok 2023; Ok (-5); Ok 2023; Ok 123]%Z /\
  map Py.int [""; "+"; "2023T"; "_2023"; "2023_"; "2__3"; "1 2"; "+ 5"; "0x10"]
  = map (fun _ => Raise ValueError) (seq 0 9).
Proof. split; reflexivity. Qed.

Example strip_example : Py.strip (" " ++ nl ++ "a b" ++ nl) = "a b".
Proof. reflexivity. Qed.

Example slice_examples :
  Py.slice_to [1; 2; 3] 5 = [1; 2; 3] /\ Py.slice_to [1; 2; 3] 2 = [1; 2] /\
  Py.slice_to [1; 2; 3] (-1) = [1; 2] /\ Py.slice_to [1; 2; 3] (-7) = [].
Proof. repeat split. Qed.

(** ** Occurrences *)


Lemma strip_prefix_app (p r : string) : Py.strip_prefix p (p ++ r) = Some r.
Proof.
  induction p as [|a p IH]; simpl.
  - reflexivity.
  - rewrite Ascii.eqb_refl. exact IH.
Qed.

Lemma strip_prefix_Some (p s r : string) :
  Py.strip_prefix p s = Some r -> s = p ++ r.
Proof.
  revert s; induction p as [|a p IH]; intros s H; simpl in H.
  - injection H as ->. reflexivity.
  - destruct s as [|b s]; [discriminate|].
    destruct (Ascii.eqb a b) eqn:E; [|discriminate].
    apply Ascii.eqb_eq in E; subst b. simpl. f_equal. now apply IH.
Qed.

Lemma find_unfold (sep s : string) :
  Py.find sep s =
  match Py.strip_prefix sep s with
  | Some rest => Some (EmptyString, rest)
  | None =>
      match s with
      | EmptyString => None
      | String c s' =>
          match Py.find sep s' with
          | Some (a, b) => Some (String c a, b)
          | None => None
          end
      end
  end.
Proof. destruct s; reflexivity. Qed.

Lemma find_Some (sep s a b : string) :
  Py.find sep s = Some (a, b) -> s = a ++ sep ++ b.
Proof.
  revert a b; induction s as [|c s IH]; intros a b H;
    rewrite find_unfold in H;
    destruct (Py.strip_prefix sep _) as [rest|] eqn:P.
  - injection H as <- <-. exact (strip_prefix_Some _ _ _ P).
  - discriminate.
  - injection H as <- <-. exact (strip_prefix_Some _ _ _ P).
  - destruct (Py.find sep s) as [[a' b']|]; [|discriminate].
    injection H as <- <-. simpl. f_equal. now apply IH.
Qed.

Lemma find_complete (sep a b : string) :
  exists a' b', Py.find sep (a ++ sep ++ b) = Some (a', b').
Proof.
  induction a as [|c a IH]; simpl append; rewrite find_unfold.
  - rewrite strip_prefix_app. eauto.
  - destruct (Py.strip_prefix sep _); [eauto|].
    destruct IH as (a' & b' & ->). eauto.
Qed.

Lemma contains_true_iff (sep s : string) :
  Py.contains sep s = true <-> exists a b, s = a ++ sep ++ b.
Proof.
  unfold Py.contains; split.
  - destruct (Py.find sep s) as [[a b]|] eqn:F; [|discriminate].
    intros _. exists a, b. now apply find_Some.
  - intros (a & b & ->). now destruct (find_complete sep a b) as (a' & b' & ->).
Qed.

Lemma contains_false_find (sep s : string) :
  Py.contains sep s = false <-> Py.find sep s = None.
Proof.
  unfold Py.contains. destruct (Py.find sep s); split; congruence.
Qed.

Lemma length_append (a b : string) :
  String.length (a ++ b) = String.length a + String.length b.
Proof. induction a; simpl; congruence. Qed.

Lemma nonempty_length (s : string) : s <> EmptyString -> 0 < String.length s.
Proof. destruct s; simpl; [congruence | lia]. Qed.

(** ** [split]: the fuel is enough *)

Section Split.

Variable sep : string.
Hypothesis sep_nonempty : sep <> EmptyString.

Lemma find_shorter (s a b : string) :
  Py.find sep s = Some (a, b) -> String.length b < String.length s.
Proof.
  intros H. apply find_Some in H. subst s.
  rewrite !length_append. pose proof (nonempty_length sep sep_nonempty). lia.
Qed.

Lemma find_empty : Py.find sep EmptyString = None.
Proof. destruct sep; [congruence | reflexivity]. Qed.

Lemma split_fuel_enough (n m : nat) (s : string) :
  String.length s <= n -> String.length s <= m ->
  Py.split_fuel n sep s = Py.split_fuel m sep s.
Proof.
  revert m s; induction n as [|n IH]; intros m s Hn Hm.
  - destruct s; [|simpl in Hn; lia].
    destruct m; cbn [Py.split_fuel]; [reflexivity | now rewrite find_empty].
  - destruct m as [|m].
    + destruct s; [|simpl in Hm; lia].
      cbn [Py.split_fuel]. now rewrite find_empty.
    + cbn [Py.split_fuel].
      destruct (Py.find sep s) as [[a b]|] eqn:F; [|reflexivity].
      f_equal. pose proof (find_shorter _ _ _ F). apply IH; lia.
Qed.

(** The equation [split] is meant to satisfy. *)
Lemma split_eq (s : string) :
  Py.split sep s =
  match Py.find sep s with
  | None => [s]
  | Some (a, b) => a :: Py.split sep b
  end.
Proof.
  unfold Py.split.
  destruct (String.length s) as [|k] eqn:L.
  - destruct s; [|discriminate]. now rewrite find_empty.
  - cbn [Py.split_fuel].
    destruct (Py.find sep s) as [[a b]|] eqn:F; [|reflexivity].
    f_equal. pose proof (find_shorter _ _ _ F).
    apply split_fuel_enough; lia.
Qed.

Lemma split_absent (s : string) :
  Py.contains sep s = false -> Py.split sep s = [s].
Proof.
  intros H. apply contains_false_find in H. now rewrite split_eq, H.
Qed.

Lemma split_head (s : string) :
  Py.index (Py.split sep s) 0 = Ok (upto sep s).
Proof.
  rewrite split_eq. unfold upto.
  now destruct (Py.find sep s) as [[a b]|].
Qed.

Lemma split_second (s : string) :
  Py.index (Py.split sep s) 1 =
  match Py.find sep s with
  | None => Raise IndexError
  | Some (_, b) => Ok (upto sep b)
  end.
Proof.
  rewrite split_eq.
  destruct (Py.find sep s) as [[a b]|]; [|reflexivity].
  exact (split_head b).
Qed.

End Split.

(** ** One field *)

Lemma field_eq (open close text : string) :
  open <> EmptyString -> close <> EmptyString ->
  field open close text =
  match Py.find open text with
  | None => Raise IndexError
  | Some (_, rest) => Ok (Py.strip (upto close (upto open rest)))
  end.
Proof.
  intros Ho Hc. unfold field. rewrite split_second by trivial.
  destruct (Py.find open text) as [[a rest]|]; [|reflexivity].
  simpl. now rewrite split_head.
Qed.

Lemma field_raises_iff (open close text : string) :
  open <> EmptyString -> close <> EmptyString ->
  raises (field open close text) <-> Py.contains open text = false.
Proof.
  intros Ho Hc. rewrite field_eq, contains_false_find by trivial.
  destruct (Py.find open text) as [[a rest]|]; split.
  - intros [e H]; discriminate.
  - discriminate.
  - reflexivity.
  - intros _. now exists IndexError.
Qed.

Lemma before_first_dash_upto (s : string) : upto "-" s = before_first_dash s.
Proof.
  unfold upto. induction s as [|c s IH]; [reflexivity|].
  rewrite find_unfold. cbn [Py.strip_prefix before_first_dash].
  rewrite (Ascii.eqb_sym c "-").
  destruct (Ascii.eqb "-" c); [reflexivity|].
  destruct (Py.find "-" s) as [[a b]|]; congruence.
Qed.

(** ** One entry chunk *)

Lemma raises_Ok {A : Type} (a : A) : ~ raises (Ok a).
Proof. intros [e H]; discriminate. Qed.

Lemma raises_Raise {A : Type} (e : exn) : raises (@Raise A e).
Proof. now exists e. Qed.

Lemma is_ok_true {A : Type} (r : result A) :
  is_ok r = true <-> exists a, r = Ok a.
Proof.
  destruct r as [a|e]; simpl; split; eauto; try discriminate.
  intros [a H]; discriminate.
Qed.

Lemma required_fields_eq (entry : string) :
  required_fields entry =
  (t <- field "<title>" "</title>" entry ;;
   s <- field "<summary>" "</summary>" entry ;;
   l <- field "<id>" "</id>" entry ;;
   published <- field "<published>" "</published>" entry ;;
   y <- Py.int (before_first_dash published) ;;
   Ok (t, s, l, y))%result.
Proof.
  unfold required_fields.
  destruct (field "<title>" "</title>" entry); [|reflexivity].
  destruct (field "<summary>" "</summary>" entry); [|reflexivity].
  destruct (field "<id>" "</id>" entry); [|reflexivity].
  destruct (field "<published>" "</published>" entry) as [p|]; [|reflexivity].
  cbn [rbind]. rewrite split_head by discriminate.
  cbn [rbind]. now rewrite before_first_dash_upto.
Qed.

Lemma required_fields_Ok (entry t s l : string) (y : Z) :
  required_fields entry = Ok (t, s, l, y) <->
  field "<title>" "</title>" entry = Ok t /\
  field "<summary>" "</summary>" entry = Ok s /\
  field "<id>" "</id>" entry = Ok l /\
  exists published,
    field "<published>" "</published>" entry = Ok published /\
    Py.int (before_first_dash published) = Ok y.
Proof.
  rewrite required_fields_eq.
  destruct (field "<title>" "</title>" entry) as [t'|];
    [|split; [discriminate | intros (H & _); discriminate]].
  destruct (field "<summary>" "</summary>" entry) as [s'|];
    [|split; [discriminate | intros (_ & H & _); discriminate]].
  destruct (field "<id>" "</id>" entry) as [l'|];
    [|split; [discriminate | intros (_ & _ & H & _); discriminate]].
  destruct (field "<published>" "</published>" entry) as [p|];
    [|split; [discriminate | intros (_ & _ & _ & p & H & _); discriminate]].
  cbn [rbind].
  destruct (Py.int (before_first_dash p)) as [y'|] eqn:Y; cbn [rbind]; split.
  - intros [= -> -> -> ->]. repeat split; trivial. now exists p.
  - intros ([= ->] & [= ->] & [= ->] & p' & [= <-] & H). congruence.
  - discriminate.
  - intros (_ & _ & _ & p' & [= <-] & H). congruence.
Qed.

Lemma required_fields_raises (entry : string) :
  raises (required_fields entry) <->
  Py.contains "<title>" entry = false \/
  Py.contains "<summary>" entry = false \/
  Py.contains "<id>" entry = false \/
  Py.contains "<published>" entry = false \/
  exists published,
    field "<published>" "</published>" entry = Ok published /\
    raises (Py.int (before_first_dash published)).
Proof.
  rewrite required_fields_eq.
  rewrite <- (field_raises_iff "<title>" "</title>") by discriminate.
  rewrite <- (field_raises_iff "<summary>" "</summary>") by discriminate.
  rewrite <- (field_raises_iff "<id>" "</id>") by discriminate.
  rewrite <- (field_raises_iff "<published>" "</published>") by discriminate.
  destruct (field "<title>" "</title>" entry) as [t|e1];
    [|split; [left|]; intros; apply raises_Raise].
  destruct (field "<summary>" "</summary>" entry) as [s|e2];
    [|split; [right; left|]; intros; apply raises_Raise].
  destruct (field "<id>" "</id>" entry) as [l|e3];
    [|split; [right; right; left|]; intros; apply raises_Raise].
  destruct (field "<published>" "</published>" entry) as [p|e4];
    [|split; [right; right; right; left|]; intros; apply raises_Raise].
  cbn [rbind].
  destruct (Py.int (before_first_dash p)) as [y|e5] eqn:Y; cbn [rbind]; split.
  - intros H; now apply raises_Ok in H.
  - intros [H|[H|[H|[H|(p' & [= <-] & H)]]]];
      try (now apply raises_Ok in H).
    rewrite Y in H. now apply raises_Ok in H.
  - intros _. do 4 right. exists p. split; trivial. rewrite Y. apply raises_Raise.
  - intros _. apply raises_Raise.
Qed.

Lemma author_loop_acc (parts acc : list string) :
  author_loop parts acc =
  (names <- author_loop parts [] ;; Ok (acc ++ names)%list)%result.
Proof.
  revert acc; induction parts as [|part rest IH]; intros acc;
    cbn [author_loop rbind].
  - now rewrite app_nil_r.
  - destruct (field "<name>" "</name>" part) as [name|]; cbn [rbind];
      [|reflexivity].
    rewrite (IH (acc ++ [name])%list), (IH ([] ++ [name])%list).
    destruct (author_loop rest []); cbn [rbind]; [|reflexivity].
    now rewrite <- app_assoc.
Qed.

Lemma author_loop_raises (parts acc : list string) :
  raises (author_loop parts acc) <->
  Exists (fun part => Py.contains "<name>" part = false) parts.
Proof.
  revert acc; induction parts as [|part rest IH]; intros acc;
    cbn [author_loop].
  - split; [intros H; now apply raises_Ok in H | intros H; inversion H].
  - rewrite Exists_cons.
    rewrite <- (field_raises_iff "<name>" "</name>") by discriminate.
    destruct (field "<name>" "</name>" part) as [name|e]; cbn [rbind].
    + rewrite IH. split; [now right|].
      intros [H|H]; [now apply raises_Ok in H | exact H].
    + split; [left|]; intros; apply raises_Raise.
Qed.

Lemma parse_entry_Ok (entry : string) (doc : Document) :
  parse_entry entry = Ok doc <->
  exists t s l y a,
    required_fields entry = Ok (t, s, l, y) /\
    author_loop (skipn 1 (Py.split "<author>" entry)) [] = Ok a /\
    doc = document t s l y a.
Proof.
  unfold parse_entry.
  destruct (required_fields entry) as [[[[t s] l] y]|e]; cbn [rbind].
  - destruct (author_loop _ _) as [a|e]; cbn [rbind]; split.
    + intros [= <-]. now exists t, s, l, y, a.
    + intros (t' & s' & l' & y' & a' & [= <- <- <- <-] & [= <-] & ->).
      reflexivity.
    + discriminate.
    + intros (t' & s' & l' & y' & a' & _ & H & _). discriminate.
  - split; [discriminate|].
    intros (t' & s' & l' & y' & a' & H & _). discriminate.
Qed.

Lemma parse_entry_raises (entry : string) :
  raises (parse_entry entry) <->
  raises (required_fields entry) \/
  Exists (fun part => Py.contains "<name>" part = false)
         (skipn 1 (Py.split "<author>" entry)).
Proof.
  rewrite <- (author_loop_raises _ []). unfold parse_entry.
  destruct (required_fields entry) as [[[[t s] l] y]|e]; cbn [rbind].
  - destruct (author_loop _ _) as [a|e]; cbn [rbind]; split.
    + intros H; now apply raises_Ok in H.
    + intros [H|H]; now apply raises_Ok in H.
    + intros _; right; apply raises_Raise.
    + intros _; apply raises_Raise.
  - split; [left|]; intros; apply raises_Raise.
Qed.

Lemma well_formed_entry_parses (entry : string) :
  well_formed_entry entry = true <-> exists doc, parse_entry entry = Ok doc.
Proof.
  assert (E : (exists doc, parse_entry entry = Ok doc)
              <-> ~ raises (parse_entry entry)).
  { destruct (parse_entry entry) as [d|e]; split.
    - intros _. apply raises_Ok.
    - intros _. now exists d.
    - intros [d H]; discriminate.
    - intros H. destruct H. apply raises_Raise. }
  rewrite E, parse_entry_raises, required_fields_raises.
  unfold well_formed_entry. rewrite !andb_true_iff, is_ok_true, forallb_forall.
  rewrite Exists_exists. split.
  - intros (((((T & S) & I) & P) & (y & Y)) & A) H.
    destruct H as [[H|[H|[H|[H|(p & Hp & H)]]]]|(part & Hin & H)];
      try congruence.
    + rewrite Hp in Y. cbn [rbind] in Y. rewrite Y in H.
      now apply raises_Ok in H.
    + rewrite (A part Hin) in H. discriminate.
  - intros H.
    assert (C : forall sep, Py.contains sep entry = false \/
                            Py.contains sep entry = true)
      by (intros sep; destruct (Py.contains sep entry); auto).
    destruct (C "<title>") as [T|T]; [destruct H; auto|].
    destruct (C "<summary>") as [S|S]; [destruct H; auto|].
    destruct (C "<id>") as [I|I]; [destruct H; auto|].
    destruct (C "<published>") as [P|P]; [destruct H; auto 6|].
    repeat split; trivial.
    + destruct (field "<published>" "</published>" entry) as [p|e] eqn:Hp.
      * cbn [rbind].
        destruct (Py.int (before_first_dash p)) as [y|e] eqn:Y;
          [now exists y|].
        destruct H. left. do 4 right. exists p. split; trivial.
        rewrite Y. apply raises_Raise.
      * assert (R : raises (field "<published>" "</published>" entry))
          by (rewrite Hp; apply raises_Raise).
        apply field_raises_iff in R; [congruence | discriminate..].
    + intros part Hin.
      destruct (Py.contains "<name>" part) eqn:N; trivial.
      destruct H. right. now exists part.
Qed.

Lemma append_assoc (a b c : string) : (a ++ b) ++ c = a ++ b ++ c.
Proof. induction a; simpl; congruence. Qed.

Lemma append_empty_r (a : string) : a ++ EmptyString = a.
Proof. induction a; simpl; congruence. Qed.

Lemma upto_prefix (sep s : string) : exists tail, s = upto sep s ++ tail.
Proof.
  unfold upto. destruct (Py.find sep s) as [[a b]|] eqn:F.
  - exists (sep ++ b). now apply find_Some.
  - exists EmptyString. now rewrite append_empty_r.
Qed.

Lemma upto_absent (sep s : string) :
  Py.contains sep s = false -> upto sep s = s.
Proof.
  intros H. apply contains_false_find in H. unfold upto. now rewrite H.
Qed.

(** A delimiter absent from the chunk is absent from the piece that follows
    the start delimiter. *)
Lemma contains_piece (open close entry a rest : string) :
  Py.find open entry = Some (a, rest) ->
  Py.contains close entry = false ->
  Py.contains close (upto open rest) = false.
Proof.
  intros F H. destruct (Py.contains close (upto open rest)) eqn:C; trivial.
  apply contains_true_iff in C. destruct C as (x & y & C).
  apply find_Some in F. destruct (upto_prefix open rest) as [tail T].
  assert (E : Py.contains close entry = true).
  { apply contains_true_iff. exists (a ++ open ++ x), (y ++ tail).
    rewrite F, T, C. now rewrite !append_assoc. }
  congruence.
Qed.

(** ** The loop over the chunks *)

Lemma entry_loop_acc (entries : list string) (papers : list Document) :
  entry_loop entries papers = (papers ++ entry_loop entries [])%list.
Proof.
  revert papers; induction entries as [|entry rest IH]; intros papers;
    cbn [entry_loop].
  - now rewrite app_nil_r.
  - destruct (parse_entry entry) as [doc|e]; [|apply IH].
    rewrite (IH (papers ++ [doc])%list), (IH ([] ++ [doc])%list).
    now rewrite <- app_assoc.
Qed.

Lemma entry_loop_app (l1 l2 : list string) :
  entry_loop (l1 ++ l2) [] = (entry_loop l1 [] ++ entry_loop l2 [])%list.
Proof.
  induction l1 as [|entry rest IH]; [reflexivity|].
  cbn [app entry_loop]. destruct (parse_entry entry) as [doc|e]; [|exact IH].
  rewrite (entry_loop_acc (rest ++ l2)), (entry_loop_acc rest), IH.
  now rewrite app_assoc.
Qed.

Lemma entry_loop_skip (entry : string) (rest : list string)
  (papers : list Document) :
  raises (parse_entry entry) ->
  entry_loop (entry :: rest) papers = entry_loop rest papers.
Proof. intros [e H]. cbn [entry_loop]. now rewrite H. Qed.

Lemma entry_loop_keep (entry : string) (doc : Document) (rest : list string)
  (papers : list Document) :
  parse_entry entry = Ok doc ->
  entry_loop (entry :: rest) papers = entry_loop rest (papers ++ [doc]).
Proof. intros H. cbn [entry_loop]. now rewrite H. Qed.

Lemma entry_loop_all (entries : list string) :
  forallb well_formed_entry entries = true ->
  exists papers,
    entry_loop entries [] = papers /\
    Forall2 (fun entry doc => parse_entry entry = Ok doc) entries papers.
Proof.
  induction entries as [|entry rest IH]; intros H.
  - exists []. split; [reflexivity | constructor].
  - cbn [forallb] in H. apply andb_true_iff in H. destruct H as [W H].
    apply well_formed_entry_parses in W. destruct W as [doc W].
    destruct (IH H) as (papers & E & F).
    exists (doc :: papers). split; [|now constructor].
    rewrite (entry_loop_keep _ _ _ _ W), entry_loop_acc, E. reflexivity.
Qed.

Lemma fetch_eq (network : World -> Request -> result string)
  (query : string) (max_results : Z) (sort_by : string) (w : World) :
  fetch_arxiv_papers network query max_results sort_by w =
  (match network w (arxiv_request query max_results sort_by) with
   | Ok text => Ok (parse_response text)
   | Raise e => Raise e
   end,
   {| requests_log :=
        (requests_log w ++ [arxiv_request query max_results sort_by])%list;
      llm_log := llm_log w |}).
Proof.
  unfold fetch_arxiv_papers, bind, requests_get, ret.
  now destruct (network w _).
Qed.

Lemma entry_loop_none (entries : list string) :
  Forall (fun entry => raises (parse_entry entry)) entries ->
  entry_loop entries [] = [].
Proof.
  induction 1 as [|entry rest H _ IH]; [reflexivity|].
  now rewrite entry_loop_skip.
Qed.

Lemma entries_of_absent (text : string) :
  Py.contains "<entry>" text = false -> entries_of text = [].
Proof.
  intros H. unfold entries_of. rewrite split_absent; trivial. discriminate.
Qed.

(** ** The chunks of a response *)

Lemma strip_prefix_inside (tl a x r : string) (h : ascii) :
  has_char h tl = false ->
  Py.strip_prefix tl (a ++ String h x) = Some r ->
  exists a', a = tl ++ a'.
Proof.
  revert a; induction tl as [|t tl IH]; intros a H P.
  - now exists a.
  - cbn [has_char] in H. apply orb_false_iff in H. destruct H as [Ht H].
    destruct a as [|c a]; cbn [append Py.strip_prefix] in P.
    + rewrite Ascii.eqb_sym, Ht in P. discriminate.
    + destruct (Ascii.eqb t c) eqn:E; [|discriminate].
      apply Ascii.eqb_eq in E; subst c.
      destruct (IH a H P) as [a' ->]. now exists a'.
Qed.

(** The leftmost occurrence of a separator whose first character does not
    occur again in it is where the text was joined. *)
Lemma find_first (h : ascii) (tl a b : string) :
  has_char h tl = false ->
  Py.contains (String h tl) a = false ->
  Py.find (String h tl) (a ++ String h tl ++ b) = Some (a, b).
Proof.
  intros H; induction a as [|c a IH]; intros C.
  - change (EmptyString ++ String h tl ++ b) with (String h tl ++ b).
    now rewrite find_unfold, strip_prefix_app.
  - apply contains_false_find in C. rewrite find_unfold in C.
    destruct (Py.strip_prefix (String h tl) (String c a)) eqn:P;
      [discriminate|].
    assert (Ca : Py.contains (String h tl) a = false).
    { apply contains_false_find. now destruct (Py.find (String h tl) a) as [[x y]|]. }
    change (String c a ++ String h tl ++ b)
      with (String c (a ++ String h tl ++ b)).
    rewrite find_unfold.
    destruct (Py.strip_prefix (String h tl) (String c (a ++ String h tl ++ b)))
      eqn:Q.
    + exfalso. cbn [Py.strip_prefix] in P, Q.
      destruct (Ascii.eqb h c); [|discriminate].
      destruct (strip_prefix_inside tl a (tl ++ b) s h H Q) as [a' ->].
      now rewrite strip_prefix_app in P.
    + now rewrite (IH Ca).
Qed.

Lemma split_response (preamble : string) (chunks : list string) :
  Py.contains "<entry>" preamble = false ->
  forallb (fun chunk => negb (Py.contains "<entry>" chunk)) chunks = true ->
  Py.split "<entry>" (response_of preamble chunks) = preamble :: chunks.
Proof.
  unfold response_of. revert preamble;
    induction chunks as [|chunk chunks IH]; intros preamble P C.
  - cbn [fold_right]. rewrite append_empty_r.
    apply split_absent; [discriminate | exact P].
  - cbn [forallb] in C. apply andb_true_iff in C. destruct C as [C Cs].
    apply negb_true_iff in C.
    cbn [fold_right]. rewrite split_eq by discriminate.
    rewrite (find_first "<" "entry>" preamble _ eq_refl P).
    f_equal. now apply IH.
Qed.

(** The entry blocks of a response are the chunks it was made of. *)
Lemma entries_of_response (preamble : string) (chunks : list string) :
  Py.contains "<entry>" preamble = false ->
  forallb (fun chunk => negb (Py.contains "<entry>" chunk)) chunks = true ->
  entries_of (response_of preamble chunks) = chunks.
Proof.
  intros P C. unfold entries_of. now rewrite split_response.
Qed.

(** * The claims *)

(** C1.  Error isolation is per record: when the extraction of a required
    field raises in one chunk of the response, [fetch_arxiv_papers] returns
    what the other chunks give, which is what it returns for a response
    without that chunk; when the other chunks all parse, that is one record
    fewer than there are chunks. *)
Theorem fetch_skips_only_the_failing_chunk
  (network : World -> Request -> result string)
  (query : string) (max_results : Z) (sort_by : string) (w : World)
  (text : string) (before : list string) (bad : string) (after : list string) :
  network w (arxiv_request query max_results sort_by) = Ok text ->
  entries_of text = (before ++ bad :: after)%list ->
  raises (required_fields bad) ->
  let papers := (entry_loop before [] ++ entry_loop after [])%list in
  fst (fetch_arxiv_papers network query max_results sort_by w) = Ok papers /\
  (forall text',
      entries_of text' = (before ++ after)%list ->
      parse_response text' = papers) /\
  (forallb well_formed_entry (before ++ after) = true ->
   S (List.length papers) = List.length (entries_of text) /\
   Forall2 (fun entry doc => parse_entry entry = Ok doc)
           (before ++ after) papers).
Proof.
  intros N E R papers.
  assert (B : raises (parse_entry bad)) by (apply parse_entry_raises; now left).
  repeat split.
  - rewrite fetch_eq, N. cbn [fst]. f_equal. unfold parse_response.
    rewrite E, entry_loop_app, (entry_loop_skip _ _ _ B). reflexivity.
  - intros text' E'. unfold parse_response.
    now rewrite E', entry_loop_app.
  - destruct (entry_loop_all _ H) as (ps & P & F).
    rewrite entry_loop_app in P. fold papers in P. subst ps.
    rewrite E, <- (Forall2_length F), !List.length_app. simpl. lia.
  - destruct (entry_loop_all _ H) as (ps & P & F).
    rewrite entry_loop_app in P. fold papers in P. now subst ps.
Qed.

Lemma fetch_skips_only_the_failing_chunk_witness :
  fst (fetch_arxiv_papers (answers feed3) "graphene batteries" 15 "relevance"
         empty_world)
  = Ok [ document "Graphene anodes" "S1" "http://arxiv.org/abs/1" 2023
           ["X"; "Y"];
         document "C" "S3" "http://arxiv.org/abs/3" 2021 [] ]
  /\ parse_response feed2 = parse_response feed3
  /\ List.length (parse_response feed3) = 2.
Proof.
  destruct (fetch_skips_only_the_failing_chunk
              (answers feed3) "graphene batteries" 15 "relevance" empty_world
              feed3 [entry_a] entry_b [entry_c])
    as (F & A & L).
  - reflexivity.
  - vm_compute. reflexivity.
  - exists IndexError. vm_compute. reflexivity.
  - split; [exact F|]. split.
    + rewrite (A feed2); [|vm_compute; reflexivity].
      vm_compute. reflexivity.
    + destruct L as [L _]; [vm_compute; reflexivity|].
      vm_compute. reflexivity.
Defined.

(** In terms of the parser's own chunks: when every chunk of the response
    passes [well_formed_entry], there is one record per chunk, the i-th
    record being that of the i-th chunk. *)
Theorem fetch_returns_every_well_formed_entry
  (network : World -> Request -> result string)
  (query : string) (max_results : Z) (sort_by : string) (w : World)
  (text : string) :
  network w (arxiv_request query max_results sort_by) = Ok text ->
  forallb well_formed_entry (entries_of text) = true ->
  exists papers,
    fst (fetch_arxiv_papers network query max_results sort_by w) = Ok papers /\
    List.length papers = List.length (entries_of text) /\
    Forall2 (fun entry doc => parse_entry entry = Ok doc)
            (entries_of text) papers.
Proof.
  intros N W. destruct (entry_loop_all _ W) as (papers & E & F).
  exists papers. rewrite fetch_eq, N. cbn [fst]. unfold parse_response.
  rewrite E. repeat split; trivial. symmetry. exact (Forall2_length F).
Qed.

Lemma fetch_returns_every_well_formed_entry_witness :
  exists papers,
    fst (fetch_arxiv_papers (answers feed2) "graphene batteries" 15
           "relevance" empty_world) = Ok papers /\
    List.length papers = List.length (entries_of feed2) /\
    Forall2 (fun entry doc => parse_entry entry = Ok doc)
            (entries_of feed2) papers.
Proof.
  apply (fetch_returns_every_well_formed_entry (answers feed2)
           "graphene batteries" 15 "relevance" empty_world feed2).
  - reflexivity.
  - vm_compute. reflexivity.
Defined.

(** C2, as amended.  The request carries a timeout of 30 seconds and is sent
    once.  An exception raised by the request is not caught: it reaches the
    caller.  A body in which no chunk parses, such as one without the entry
    marker, gives the empty list. *)
Theorem fetch_failure_modes
  (network : World -> Request -> result string)
  (query : string) (max_results : Z) (sort_by : string) (w : World) :
  let request := arxiv_request query max_results sort_by in
  let outcome := fetch_arxiv_papers network query max_results sort_by w in
  timeout request = 30%Z /\
  requests_log (snd outcome) = (requests_log w ++ [request])%list /\
  (forall e, network w request = Raise e -> fst outcome = Raise e) /\
  (forall text,
      network w request = Ok text ->
      Forall (fun entry => raises (parse_entry entry)) (entries_of text) ->
      fst outcome = Ok []) /\
  (forall text,
      network w request = Ok text ->
      Py.contains "<entry>" text = false ->
      fst outcome = Ok []).
Proof.
  intros request outcome. subst outcome. rewrite fetch_eq. fold request.
  cbn [fst snd requests_log]. repeat split.
  - intros e ->. reflexivity.
  - intros text -> H. unfold parse_response. now rewrite entry_loop_none.
  - intros text -> H. unfold parse_response.
    now rewrite (entries_of_absent _ H).
Qed.

Lemma fetch_failure_modes_witness :
  fst (fetch_arxiv_papers times_out "graphene batteries" 15 "relevance"
         empty_world)
  = Raise (Foreign "requests.exceptions.ConnectTimeout")
  /\ fst (fetch_arxiv_papers (answers "<html>Rate exceeded.</html>")
            "graphene batteries" 15 "relevance" empty_world) = Ok []
  /\ fst (fetch_arxiv_papers (answers ("<feed><entry>" ++ entry_b))
            "graphene batteries" 15 "relevance" empty_world) = Ok [].
Proof.
  split; [|split].
  - apply (fetch_failure_modes times_out "graphene batteries" 15 "relevance"
             empty_world).
    reflexivity.
  - apply (fetch_failure_modes (answers "<html>Rate exceeded.</html>")
             "graphene batteries" 15 "relevance" empty_world)
      with (text := "<html>Rate exceeded.</html>").
    + reflexivity.
    + vm_compute. reflexivity.
  - destruct (fetch_failure_modes (answers ("<feed><entry>" ++ entry_b))
                "graphene batteries" 15 "relevance" empty_world)
      as (_ & _ & _ & H & _).
    apply (H ("<feed><entry>" ++ entry_b)).
    + reflexivity.
    + vm_compute. constructor; [|constructor].
      exists IndexError. reflexivity.
Defined.

(** C2, as stated, fails: when the request times out, the caller gets the
    exception, not the empty list. *)
Lemma fetch_timeout_reaches_the_caller :
  fst (fetch_arxiv_papers times_out "graphene batteries" 15 "relevance"
         empty_world)
  = Raise (Foreign "requests.exceptions.ConnectTimeout")
  /\ fst (fetch_arxiv_papers times_out "graphene batteries" 15 "relevance"
            empty_world)
     <> Ok [].
Proof. split; [reflexivity | discriminate]. Qed.

(** C4.  The year of a parsed record is the integer that the characters
    before the first [-] of the published date form; when they form none,
    the record is dropped.  The date [2023-05-10T00:00:00Z] gives 2023. *)
Theorem year_is_the_integer_before_the_first_dash (entry : string) :
  (forall doc,
      parse_entry entry = Ok doc ->
      exists published y,
        field "<published>" "</published>" entry = Ok published /\
        Py.int (before_first_dash published) = Ok y /\
        year (metadata doc) = Some y) /\
  (forall published,
      field "<published>" "</published>" entry = Ok published ->
      raises (Py.int (before_first_dash published)) ->
      raises (parse_entry entry) /\
      forall rest papers,
        entry_loop (entry :: rest) papers = entry_loop rest papers) /\
  before_first_dash "2023-05-10T00:00:00Z" = "2023" /\
  Py.int "2023" = Ok 2023%Z.
Proof.
  split; [|split; [|split; reflexivity]].
  - intros doc H. apply parse_entry_Ok in H.
    destruct H as (t & s & l & y & a & R & _ & ->).
    apply required_fields_Ok in R. destruct R as (_ & _ & _ & p & P & Y).
    now exists p, y.
  - intros p P Y.
    assert (B : raises (parse_entry entry)).
    { apply parse_entry_raises. left. apply required_fields_raises.
      do 4 right. now exists p. }
    split; [exact B|]. intros rest papers. now apply entry_loop_skip.
Qed.

Lemma year_is_the_integer_before_the_first_dash_witness :
  (exists published y,
      field "<published>" "</published>" ("<entry>" ++ entry_a) = Ok published /\
      Py.int (before_first_dash published) = Ok y /\
      year (metadata (document "Graphene anodes" "S1" "http://arxiv.org/abs/1"
                        2023 ["X"; "Y"])) = Some y)
  /\ raises (parse_entry entry_bad_year).
Proof.
  split.
  - apply (year_is_the_integer_before_the_first_dash ("<entry>" ++ entry_a)).
    vm_compute. reflexivity.
  - apply (year_is_the_integer_before_the_first_dash entry_bad_year)
      with (published := "May 2020").
    + vm_compute. reflexivity.
    + exists ValueError. vm_compute. reflexivity.
Defined.

(** C8.  A chunk whose required fields parse and which has no author block
    gives a record with the empty list of authors, and the record is
    kept. *)
Theorem no_author_block_gives_empty_authors
  (entry t s l : string) (y : Z) :
  required_fields entry = Ok (t, s, l, y) ->
  Py.contains "<author>" entry = false ->
  parse_entry entry = Ok (document t s l y []) /\
  authors (metadata (document t s l y [])) = Some [] /\
  forall rest papers,
    entry_loop (entry :: rest) papers
    = entry_loop rest (papers ++ [document t s l y []]).
Proof.
  intros R A.
  assert (P : parse_entry entry = Ok (document t s l y [])).
  { unfold parse_entry. rewrite R. cbn [rbind].
    rewrite split_absent by (trivial; discriminate). reflexivity. }
  repeat split; trivial. intros rest papers. now apply entry_loop_keep.
Qed.

Lemma no_author_block_gives_empty_authors_witness :
  parse_entry entry_c
  = Ok (document "C" "S3" "http://arxiv.org/abs/3" 2021 []).
Proof.
  apply (no_author_block_gives_empty_authors entry_c "C" "S3"
           "http://arxiv.org/abs/3" 2021).
  - vm_compute. reflexivity.
  - vm_compute. reflexivity.
Defined.

(** C10, as amended.  The chunk is skipped exactly when a required start
    delimiter is absent, or the characters before the first [-] of the
    published date form no integer, or an author block has no [<name>].  A
    start delimiter without its end delimiter does not raise: the value is
    the text after the first start delimiter, up to the next occurrence of
    that start delimiter, stripped; that is the whole rest of the chunk when
    the start delimiter does not occur again. *)
Theorem chunk_is_skipped_iff (entry : string) :
  (raises (parse_entry entry) <->
   Py.contains "<title>" entry = false \/
   Py.contains "<summary>" entry = false \/
   Py.contains "<id>" entry = false \/
   Py.contains "<published>" entry = false \/
   (exists published,
       field "<published>" "</published>" entry = Ok published /\
       raises (Py.int (before_first_dash published))) \/
   Exists (fun part => Py.contains "<name>" part = false)
          (skipn 1 (Py.split "<author>" entry))) /\
  (forall open close a rest,
      open <> EmptyString -> close <> EmptyString ->
      Py.find open entry = Some (a, rest) ->
      Py.contains close entry = false ->
      field open close entry = Ok (Py.strip (upto open rest)) /\
      (Py.contains open rest = false ->
       field open close entry = Ok (Py.strip rest))).
Proof.
  split.
  - rewrite parse_entry_raises, required_fields_raises. tauto.
  - intros open close a rest Ho Hc F C.
    assert (E : field open close entry = Ok (Py.strip (upto open rest))).
    { rewrite field_eq, F by trivial.
      now rewrite (upto_absent close _ (contains_piece _ _ _ _ _ F C)). }
    split; [exact E|]. intros H. now rewrite E, (upto_absent _ _ H).
Qed.

Lemma chunk_is_skipped_iff_witness :
  field "<summary>" "</summary>" "<title>T</title><summary> S <id>I</id>"
  = Ok "S <id>I</id>"
  /\ field "<title>" "</title>" entry_two_titles = Ok "A".
Proof.
  split.
  - apply (chunk_is_skipped_iff "<title>T</title><summary> S <id>I</id>")
      with (a := "<title>T</title>") (rest := " S <id>I</id>").
    + discriminate.
    + discriminate.
    + vm_compute. reflexivity.
    + vm_compute. reflexivity.
    + vm_compute. reflexivity.
  - destruct (proj2 (chunk_is_skipped_iff entry_two_titles)
                "<title>" "</title>" EmptyString
                "A<title>B<summary>S</summary><id>I</id><published>2020-01-01</published>")
      as [H _].
    + discriminate.
    + discriminate.
    + vm_compute. reflexivity.
    + vm_compute. reflexivity.
    + exact H.
Defined.

(** C10, as stated, fails twice.  A chunk with every required start
    delimiter and a good year is skipped all the same when an author block
    has no [<name>]; and with two [<title>] and no [</title>] the title is
    the text between them, not the rest of the chunk. *)
Lemma chunk_skip_counterexample :
  (Py.contains "<title>" entry_unnamed_author = true /\
   Py.contains "<summary>" entry_unnamed_author = true /\
   Py.contains "<id>" entry_unnamed_author = true /\
   Py.contains "<published>" entry_unnamed_author = true /\
   required_fields entry_unnamed_author = Ok ("T", "S", "I", 2020%Z) /\
   parse_entry entry_unnamed_author = Raise IndexError) /\
  (Py.contains "</title>" entry_two_titles = false /\
   Py.find "<title>" entry_two_titles
   = Some ("", "A<title>B<summary>S</summary><id>I</id><published>2020-01-01</published>") /\
   field "<title>" "</title>" entry_two_titles = Ok "A" /\
   Py.strip "A<title>B<summary>S</summary><id>I</id><published>2020-01-01</published>"
   <> "A" /\
   parse_entry entry_two_titles = Ok (document "A" "S" "I" 2020 [])).
Proof. vm_compute. repeat split; discriminate. Qed.

(** ** The survey builder *)

Lemma format_template (papers query : string) :
  format template [("papers", papers); ("query", query)]
  = Ok (prompt_of papers query).
Proof. reflexivity. Qed.

Lemma build_survey_eq (query : string) (docs : list Document)
  (llm : World -> string -> result AIMessage) (w : World) :
  build_survey_text query docs llm w =
  (answer_text (llm w (prompt_of (papers_text docs) query)),
   after_llm_call w (prompt_of (papers_text docs) query)).
Proof.
  unfold build_survey_text, chain_invoke, bind, lift, llm_invoke, ret.
  rewrite format_template. unfold after_llm_call, answer_text.
  now destruct (llm w _).
Qed.

Lemma join_cons (sep x y : string) (l : list string) :
  Py.join sep (x :: y :: l) = x ++ sep ++ Py.join sep (y :: l).
Proof. reflexivity. Qed.

Lemma join_snoc (sep x : string) (l : list string) (y : string) :
  Py.join sep ((x :: l) ++ [y]) = Py.join sep (x :: l) ++ sep ++ y.
Proof.
  revert x; induction l as [|z l IH]; intros x.
  - reflexivity.
  - change ((x :: z :: l) ++ [y])%list with (x :: (z :: l) ++ [y])%list.
    change ((z :: l) ++ [y])%list with (z :: (l ++ [y]))%list.
    rewrite join_cons.
    change (z :: (l ++ [y]))%list with ((z :: l) ++ [y])%list.
    rewrite IH, join_cons. now rewrite !append_assoc.
Qed.

Lemma block_of_record (d : Document) (record : string * Z * string) :
  record_view d = Some record -> block d = spec_block record.
Proof.
  unfold record_view, block, get_title, get_year, spec_block.
  destruct (title (metadata d)); [|discriminate].
  destruct (year (metadata d)); [|discriminate].
  now intros [= <-].
Qed.

Lemma fold_left_blocks (later : list (string * Z * string)) (x : string)
  (l : list string) :
  fold_left (fun text record => text ++ nl ++ nl ++ spec_block record)
            later (Py.join (nl ++ nl) (x :: l))
  = Py.join (nl ++ nl) ((x :: l) ++ map spec_block later).
Proof.
  revert l; induction later as [|r later IH]; intros l; cbn [fold_left map].
  - now rewrite app_nil_r.
  - rewrite <- (append_assoc nl nl), <- join_snoc.
    change ((x :: l) ++ [spec_block r])%list
      with (x :: (l ++ [spec_block r]))%list.
    rewrite IH. cbn [app]. now rewrite <- app_assoc.
Qed.

Lemma spec_section_join (records : list (string * Z * string)) :
  spec_section records = Py.join (nl ++ nl) (map spec_block records).
Proof.
  destruct records as [|first later]; [reflexivity|].
  unfold spec_section.
  change (spec_block first) with (Py.join (nl ++ nl) [spec_block first]).
  now rewrite fold_left_blocks.
Qed.

Lemma papers_text_records (docs : list Document)
  (records : list (string * Z * string)) :
  map record_view docs = map Some records ->
  papers_text docs = spec_section records.
Proof.
  intros H. rewrite spec_section_join. unfold papers_text. f_equal.
  revert records H; induction docs as [|d docs IH]; intros [|r records] H;
    try discriminate; [reflexivity|].
  cbn [map] in *. injection H as Hd H.
  now rewrite (block_of_record _ _ Hd), (IH _ H).
Qed.

Lemma slice_to_all {A : Type} (l : list A) (k : Z) :
  (Z.of_nat (List.length l) <= k)%Z -> Py.slice_to l k = l.
Proof.
  intros H. unfold Py.slice_to.
  destruct (0 <=? k)%Z eqn:K; [|apply Z.leb_gt in K; lia].
  apply firstn_all2. lia.
Qed.

(** * The claims on the survey builder *)

(** C5.  For records with a title and a year, the papers section of the
    prompt sent to the model is one block [Title: t (y)] / [Summary: s] per
    record, in the order of the input, with one blank line between two
    blocks. *)
Theorem papers_section_is_one_block_per_record
  (query : string) (docs : list Document)
  (records : list (string * Z * string))
  (llm : World -> string -> result AIMessage) (w : World) :
  map record_view docs = map Some records ->
  papers_text docs = spec_section records /\
  llm_log (snd (build_survey_text query docs llm w))
  = (llm_log w ++ [prompt_of (spec_section records) query])%list.
Proof.
  intros H. split; [now apply papers_text_records|].
  rewrite build_survey_eq. cbn [snd after_llm_call llm_log].
  now rewrite (papers_text_records _ _ H).
Qed.

Lemma papers_section_is_one_block_per_record_witness :
  papers_text [ document "A" "first abstract" "http://arxiv.org/abs/1" 2020 [];
                document "B" "second abstract" "http://arxiv.org/abs/2" 2021 [] ]
  = "Title: A (2020)" ++ nl ++ "Summary: first abstract" ++ nl ++ nl
    ++ "Title: B (2021)" ++ nl ++ "Summary: second abstract".
Proof.
  apply (papers_section_is_one_block_per_record "graphene batteries"
           [ document "A" "first abstract" "http://arxiv.org/abs/1" 2020 [];
             document "B" "second abstract" "http://arxiv.org/abs/2" 2021 [] ]
           [ ("A", 2020%Z, "first abstract");
             ("B", 2021%Z, "second abstract") ]
           echo empty_world).
  reflexivity.
Defined.

(** C6.  With no paper the papers section is empty, the prompt still holds
    the topic, and nothing raises before the model is called: the model is
    called once with that prompt and its answer decides the outcome. *)
Theorem build_survey_of_no_paper
  (query : string) (llm : World -> string -> result AIMessage) (w : World) :
  papers_text [] = EmptyString /\
  Py.contains query (prompt_of EmptyString query) = true /\
  build_survey_text query [] llm w
  = (answer_text (llm w (prompt_of EmptyString query)),
     after_llm_call w (prompt_of EmptyString query)).
Proof.
  split; [reflexivity|]. split.
  - apply contains_true_iff.
    exists (prompt_head ++ nl ++ nl ++ "Research Topic: "), nl.
    unfold prompt_of. now rewrite !append_assoc.
  - apply build_survey_eq.
Qed.

(** C7.  The model is called once, with the prompt; its text comes back as
    it is, and the exception it raises comes back as it is. *)
Theorem build_survey_calls_the_model_once
  (query : string) (docs : list Document)
  (llm : World -> string -> result AIMessage) (w : World) :
  let prompt := prompt_of (papers_text docs) query in
  let outcome := build_survey_text query docs llm w in
  llm_log (snd outcome) = (llm_log w ++ [prompt])%list /\
  requests_log (snd outcome) = requests_log w /\
  fst outcome =
  match llm w prompt with
  | Ok message => Ok (content message)
  | Raise e => Raise e
  end.
Proof.
  intros prompt outcome. subst outcome. rewrite build_survey_eq.
  repeat split.
Qed.

Lemma main_eq (network : World -> Request -> result string)
  (llm : World -> string -> result AIMessage)
  (topic : string) (n_fetch top_k : Z) (sort_by : string) (w : World) :
  main network llm topic n_fetch top_k sort_by w =
  let w1 := after_request w (arxiv_request topic n_fetch sort_by) in
  match network w (arxiv_request topic n_fetch sort_by) with
  | Raise e => (Raise e, w1)
  | Ok text =>
      match parse_response text with
      | [] => (Ok NoPapersFound, w1)
      | papers =>
          let prompt :=
            prompt_of (papers_text (Py.slice_to papers top_k)) topic in
          (match llm w1 prompt with
           | Ok message =>
               Ok (SurveyDraft (List.length papers) (content message))
           | Raise e => Raise e
           end,
           after_llm_call w1 prompt)
      end
  end.
Proof.
  unfold main, bind. rewrite fetch_eq. fold (after_request w
    (arxiv_request topic n_fetch sort_by)).
  destruct (network w _) as [text|e]; [|reflexivity].
  destruct (parse_response text) as [|d ds]; [reflexivity|].
  rewrite build_survey_eq. cbv zeta. unfold answer_text, ret.
  now destruct (llm _ _).
Qed.

(** C9.  Every record given is rendered, whatever their number: the papers
    section joins one block per record.  A top-K at or beyond the number of
    papers keeps them all, and [main] then builds the survey from all of
    them; nothing raises but what the model raises. *)
Theorem survey_renders_all_it_is_given
  (topic : string) (papers : list Document)
  (llm : World -> string -> result AIMessage) (w : World) :
  (papers_text papers = Py.join (nl ++ nl) (map block papers) /\
   List.length (map block papers) = List.length papers /\
   build_survey_text topic papers llm w
   = (answer_text (llm w (prompt_of (papers_text papers) topic)),
      after_llm_call w (prompt_of (papers_text papers) topic))) /\
  (forall top_k,
      (Z.of_nat (List.length papers) <= top_k)%Z ->
      Py.slice_to papers top_k = papers /\
      build_survey_text topic (Py.slice_to papers top_k) llm w
      = build_survey_text topic papers llm w /\
      forall network n_fetch sort_by w0 text,
        network w0 (arxiv_request topic n_fetch sort_by) = Ok text ->
        parse_response text = papers ->
        papers <> [] ->
        w = after_request w0 (arxiv_request topic n_fetch sort_by) ->
        main network llm topic n_fetch top_k sort_by w0
        = (match llm w (prompt_of (papers_text papers) topic) with
           | Ok message =>
               Ok (SurveyDraft (List.length papers) (content message))
           | Raise e => Raise e
           end,
           after_llm_call w (prompt_of (papers_text papers) topic))).
Proof.
  split.
  - repeat split; [apply length_map | apply build_survey_eq].
  - intros top_k H. rewrite (slice_to_all _ _ H). repeat split.
    intros network n_fetch sort_by w0 text N P Hne ->.
    rewrite main_eq, N, P. cbv zeta.
    destruct papers as [|d ds]; [congruence|].
    now rewrite (slice_to_all _ _ H).
Qed.

Lemma survey_renders_all_it_is_given_witness :
  fst (main (answers feed3) echo "graphene batteries" 15 5 "relevance"
         empty_world)
  = Ok (SurveyDraft 2
          ("Survey of: "
           ++ prompt_of ("Title: Graphene anodes (2023)" ++ nl
                         ++ "Summary: S1" ++ nl ++ nl
                         ++ "Title: C (2021)" ++ nl ++ "Summary: S3")
                "graphene batteries")).
Proof.
  destruct (survey_renders_all_it_is_given "graphene batteries"
              (parse_response feed3) echo
              (after_request empty_world
                 (arxiv_request "graphene batteries" 15 "relevance")))
    as [_ B].
  destruct (B 5%Z) as (_ & _ & M).
  - vm_compute. discriminate.
  - rewrite (M (answers feed3) 15%Z "relevance" empty_world feed3).
    + vm_compute. reflexivity.
    + reflexivity.
    + reflexivity.
    + vm_compute. discriminate.
    + reflexivity.
Defined.

Example build_survey_echo :
  fst (build_survey_text "graphene batteries" [] echo empty_world)
  = Ok ("Survey of: " ++ prompt_of EmptyString "graphene batteries").
Proof. reflexivity. Qed.

Example build_survey_out_of_quota :
  build_survey_text "graphene batteries" (parse_response feed3) out_of_quota
    empty_world
  = (Raise (Foreign "openai.RateLimitError"),
     after_llm_call empty_world
       (prompt_of (papers_text (parse_response feed3)) "graphene batteries")).
Proof. apply build_survey_eq. Qed.

Example main_without_papers :
  fst (main (answers "<feed></feed>") echo "graphene batteries" 15 5
         "relevance" empty_world)
  = Ok NoPapersFound.
Proof. reflexivity. Qed.

(** * Further properties *)

Example export_samples :
  export_to_pdf string keep_text show_flow survey_sample
  = Ok "Background|-|Key Themes|-" /\
  export_to_word (list string) [] keep_added show_doc survey_sample
  = Ok "Background|Key Themes".
Proof. split; reflexivity. Qed.

(** ** What [strip] leaves *)

Lemma lstrip_head (s : string) :
  Py.lstrip s = EmptyString \/
  exists c t, Py.lstrip s = String c t /\ Py.is_space c = false.
Proof.
  induction s as [|c s IH]; [now left|].
  cbn [Py.lstrip]. destruct (Py.is_space c) eqn:E; [exact IH|].
  right. now exists c, s.
Qed.

Lemma rstrip_cons (c : ascii) (s : string) :
  Py.rstrip (String c s) =
  match Py.rstrip s with
  | EmptyString =>
      if Py.is_space c then EmptyString else String c EmptyString
  | String d r => String c (String d r)
  end.
Proof. reflexivity. Qed.

Lemma rstrip_idem (s : string) : Py.rstrip (Py.rstrip s) = Py.rstrip s.
Proof.
  induction s as [|c s IH]; [reflexivity|].
  rewrite rstrip_cons. destruct (Py.rstrip s) as [|d r] eqn:R.
  - destruct (Py.is_space c) eqn:E; [reflexivity|].
    rewrite rstrip_cons. cbn [Py.rstrip]. now rewrite E.
  - rewrite rstrip_cons. now rewrite IH.
Qed.

Lemma rstrip_head (c : ascii) (t : string) :
  Py.is_space c = false -> exists r, Py.rstrip (String c t) = String c r.
Proof.
  intros E. rewrite rstrip_cons. destruct (Py.rstrip t) as [|d r].
  - rewrite E. now exists EmptyString.
  - now exists (String d r).
Qed.

Lemma lstrip_strip (s : string) : Py.lstrip (Py.strip s) = Py.strip s.
Proof.
  unfold Py.strip. destruct (lstrip_head s) as [->|(c & t & -> & E)].
  - reflexivity.
  - destruct (rstrip_head c t E) as [r ->]. cbn [Py.lstrip]. now rewrite E.
Qed.

Lemma rstrip_strip (s : string) : Py.rstrip (Py.strip s) = Py.strip s.
Proof. unfold Py.strip. apply rstrip_idem. Qed.

Lemma strip_idem (s : string) : Py.strip (Py.strip s) = Py.strip s.
Proof.
  unfold Py.strip at 1. now rewrite lstrip_strip, rstrip_strip.
Qed.

Lemma lstrip_suffix (s : string) : exists l, s = l ++ Py.lstrip s.
Proof.
  induction s as [|c s [l IH]]; [now exists EmptyString|].
  cbn [Py.lstrip]. destruct (Py.is_space c).
  - exists (String c l). cbn [append]. now f_equal.
  - now exists EmptyString.
Qed.

Lemma rstrip_prefix (s : string) : exists r, s = Py.rstrip s ++ r.
Proof.
  induction s as [|c s [r IH]]; [now exists EmptyString|].
  rewrite rstrip_cons. destruct (Py.rstrip s) as [|d t].
  - destruct (Py.is_space c).
    + now exists (String c s).
    + exists r. cbn [append] in *. now f_equal.
  - exists r. cbn [append] in *. now f_equal.
Qed.

Lemma strip_inside (s : string) : exists l r, s = l ++ Py.strip s ++ r.
Proof.
  unfold Py.strip. destruct (lstrip_suffix s) as [l L].
  destruct (rstrip_prefix (Py.lstrip s)) as [r R].
  exists l, r. now rewrite <- R.
Qed.

(** ** Pieces hold no separator *)

Lemma contains_inside (sep l m r : string) :
  Py.contains sep (l ++ m ++ r) = false -> Py.contains sep m = false.
Proof.
  intros H. destruct (Py.contains sep m) eqn:C; trivial.
  apply contains_true_iff in C. destruct C as (x & y & ->).
  assert (E : Py.contains sep (l ++ (x ++ sep ++ y) ++ r) = true).
  { apply contains_true_iff. exists (l ++ x), (y ++ r).
    now rewrite !append_assoc. }
  congruence.
Qed.

Lemma strip_prefix_more (p s r t : string) :
  Py.strip_prefix p s = Some r -> Py.strip_prefix p (s ++ t) = Some (r ++ t).
Proof.
  intros H. apply strip_prefix_Some in H. subst s.
  rewrite append_assoc. apply strip_prefix_app.
Qed.

(** [find] cuts at the leftmost occurrence: none lies before the cut. *)
Lemma find_leftmost (sep s a b : string) :
  sep <> EmptyString -> Py.find sep s = Some (a, b) ->
  Py.contains sep a = false.
Proof.
  intros Hsep. revert a b; induction s as [|c s IH]; intros a b F.
  - now rewrite find_empty in F.
  - rewrite find_unfold in F.
    destruct (Py.strip_prefix sep (String c s)) as [rest|] eqn:P.
    + injection F as <- <-. apply contains_false_find. now apply find_empty.
    + destruct (Py.find sep s) as [[a' b']|] eqn:F'; [|discriminate].
      injection F as <- <-. pose proof (IH _ _ eq_refl) as C.
      apply contains_false_find in C. apply contains_false_find.
      rewrite find_unfold, C.
      destruct (Py.strip_prefix sep (String c a')) as [r|] eqn:Q;
        [|reflexivity].
      apply find_Some in F'.
      apply (strip_prefix_more _ _ _ (sep ++ b')) in Q.
      cbn [append] in Q. rewrite <- F' in Q. congruence.
Qed.

Lemma upto_free (sep s : string) :
  sep <> EmptyString -> Py.contains sep (upto sep s) = false.
Proof.
  intros Hsep. unfold upto. destruct (Py.find sep s) as [[a b]|] eqn:F.
  - exact (find_leftmost _ _ _ _ Hsep F).
  - now apply contains_false_find.
Qed.

Lemma split_pieces_free (sep : string) (n : nat) (s : string) :
  sep <> EmptyString ->
  Forall (fun piece => Py.contains sep piece = false) (Py.split_fuel n sep s)
  \/ String.length s > n.
Proof.
  intros Hsep. revert s; induction n as [|n IH]; intros s.
  - destruct s; [|right; simpl; lia]. left. constructor; [|constructor].
    apply contains_false_find. now apply find_empty.
  - cbn [Py.split_fuel]. destruct (Py.find sep s) as [[a b]|] eqn:F.
    + pose proof (find_shorter sep Hsep _ _ _ F).
      destruct (IH b) as [H'|H']; [|right; lia].
      left. constructor; [exact (find_leftmost _ _ _ _ Hsep F) | exact H'].
    + left. constructor; [now apply contains_false_find | constructor].
Qed.

Lemma split_free (sep s : string) :
  sep <> EmptyString ->
  Forall (fun piece => Py.contains sep piece = false) (Py.split sep s).
Proof.
  intros Hsep. unfold Py.split.
  destruct (split_pieces_free sep (String.length s) s Hsep); [trivial | lia].
Qed.

(** ** A field value is clean *)

Lemma field_value_clean (open close text value : string) :
  open <> EmptyString -> close <> EmptyString ->
  field open close text = Ok value -> clean open close value.
Proof.
  intros Ho Hc. rewrite field_eq by trivial.
  destruct (Py.find open text) as [[a rest]|]; [|discriminate].
  intros [= <-]. set (piece := upto open rest).
  destruct (strip_inside (upto close piece)) as (l & r & S).
  destruct (upto_prefix close piece) as [tail T].
  repeat split.
  - apply lstrip_strip.
  - apply rstrip_strip.
  - apply (contains_inside open l _ (r ++ tail)).
    rewrite <- !append_assoc, (append_assoc l), <- S, <- T.
    now apply upto_free.
  - apply (contains_inside close l _ r). rewrite <- S. now apply upto_free.
Qed.

(** ** The year is not negative *)

Lemma digit_of_nonneg (c : ascii) (d : Z) :
  Py.digit_of c = Some d -> (0 <= d)%Z.
Proof.
  unfold Py.digit_of. destruct (_ && _); [|discriminate].
  intros [= <-]. lia.
Qed.

Lemma digits_from_nonneg (n : nat) (s : string) (acc y : Z) :
  String.length s <= n -> (0 <= acc)%Z ->
  Py.digits_from acc s = Ok y -> (0 <= y)%Z.
Proof.
  revert s acc; induction n as [|n IH]; intros s acc L A H.
  - destruct s; [|simpl in L; lia]. injection H as <-. exact A.
  - destruct s as [|c s]; [injection H as <-; exact A|].
    cbn [String.length] in L. cbn [Py.digits_from] in H.
    destruct (Py.digit_of c) as [d|] eqn:D.
    + apply digit_of_nonneg in D.
      apply (IH s (10 * acc + d)%Z); trivial; lia.
    + destruct (Ascii.eqb c "_").
      * destruct s as [|c' s]; [discriminate|].
        cbn [String.length] in L.
        destruct (Py.digit_of c') as [d|] eqn:D'; [|discriminate].
        apply digit_of_nonneg in D'.
        apply (IH s (10 * acc + d)%Z); trivial; lia.
      * destruct (Py.all_int_space (String c s)); [|discriminate].
        injection H as <-. exact A.
Qed.

Lemma unsigned_from_nonneg (s : string) (y : Z) :
  Py.unsigned_from s = Ok y -> (0 <= y)%Z.
Proof.
  destruct s as [|c s]; [discriminate|]. cbn [Py.unsigned_from].
  destruct (Py.digit_of c) as [d|] eqn:D; [|discriminate].
  apply digit_of_nonneg in D.
  now apply (digits_from_nonneg (String.length s)).
Qed.

Lemma skip_int_space_chars (c : ascii) (s : string) :
  has_char c s = false -> has_char c (Py.skip_int_space s) = false.
Proof.
  induction s as [|d s IH]; [trivial|].
  cbn [Py.skip_int_space has_char]. intros H.
  destruct (Py.is_int_space d); [|exact H].
  apply orb_false_iff in H. now apply IH.
Qed.

Lemma int_nonneg (s : string) (y : Z) :
  has_char "-" s = false -> Py.int s = Ok y -> (0 <= y)%Z.
Proof.
  intros H. apply skip_int_space_chars in H. unfold Py.int.
  destruct (Py.skip_int_space s) as [|c t]; [discriminate|].
  cbn [has_char] in H. apply orb_false_iff in H. destruct H as [H _].
  rewrite Ascii.eqb_sym in H. rewrite H.
  destruct (Ascii.eqb c "+"); apply unsigned_from_nonneg.
Qed.

Lemma before_first_dash_free (s : string) :
  has_char "-" (before_first_dash s) = false.
Proof.
  induction s as [|c s IH]; [reflexivity|]. cbn [before_first_dash].
  destruct (Ascii.eqb c "-") eqn:E; [reflexivity|].
  cbn [has_char]. now rewrite Ascii.eqb_sym, E.
Qed.

(** ** What every fetched document satisfies *)

Lemma entry_loop_flat_map (entries : list string) :
  entry_loop entries [] = flat_map record_of_chunk entries.
Proof.
  induction entries as [|entry rest IH]; [reflexivity|].
  cbn [entry_loop flat_map]. unfold record_of_chunk at 1.
  destruct (parse_entry entry) as [doc|e]; [|exact IH].
  now rewrite entry_loop_acc, IH.
Qed.

Lemma fetched_all (P : Document -> Prop) :
  (forall entry doc, parse_entry entry = Ok doc -> P doc) ->
  forall text, Forall P (parse_response text).
Proof.
  intros H text. unfold parse_response. rewrite entry_loop_flat_map.
  apply Forall_forall. intros doc I. apply in_flat_map in I.
  destruct I as (entry & _ & I). unfold record_of_chunk in I.
  destruct (parse_entry entry) as [d|e] eqn:E; [|destruct I].
  destruct I as [<-|[]]. exact (H _ _ E).
Qed.

Lemma author_loop_names (parts names : list string) :
  author_loop parts [] = Ok names ->
  Forall2 (fun part name => field "<name>" "</name>" part = Ok name)
          parts names.
Proof.
  revert names; induction parts as [|part rest IH]; intros names H.
  - injection H as <-. constructor.
  - cbn [author_loop] in H.
    destruct (field "<name>" "</name>" part) as [name|] eqn:F;
      [|discriminate].
    cbn [rbind] in H. rewrite author_loop_acc in H.
    destruct (author_loop rest []) as [more|]; [|discriminate].
    injection H as <-. constructor; [exact F | now apply IH].
Qed.

Lemma flat_map_record_length (entries : list string) :
  List.length (flat_map record_of_chunk entries) <= List.length entries.
Proof.
  induction entries as [|entry rest IH]; [apply le_n|].
  cbn [flat_map]. rewrite List.length_app. unfold record_of_chunk at 1.
  destruct (parse_entry entry); simpl; lia.
Qed.

Lemma split_reassemble (sep : string) (n : nat) (s : string) :
  sep <> EmptyString -> String.length s <= n ->
  exists cs,
    Py.split_fuel n sep s = upto sep s :: cs /\
    upto sep s ++ fold_right (fun c t => sep ++ c ++ t) EmptyString cs = s.
Proof.
  intros Hsep. revert s; induction n as [|n IH]; intros s L.
  - destruct s; [|simpl in L; lia]. exists []. unfold upto.
    rewrite (find_empty sep Hsep). now split.
  - cbn [Py.split_fuel].
    destruct (Py.find sep s) as [[a b]|] eqn:F.
    + assert (U : upto sep s = a) by (unfold upto; now rewrite F).
      rewrite U. pose proof (find_shorter sep Hsep _ _ _ F).
      destruct (IH b) as (cs & E & R); [lia|].
      exists (upto sep b :: cs). split; [now rewrite E|].
      cbn [fold_right]. rewrite R. symmetry. now apply find_Some.
    + assert (U : upto sep s = s) by (unfold upto; now rewrite F).
      rewrite U. exists []. split; [reflexivity|]. apply append_empty_r.
Qed.

(** * Further properties of the fetcher *)

(** X1.  The papers parsed from a response are the records of the chunks
    that parse, in the order of the chunks: never more papers than
    chunks. *)
Theorem fetched_are_the_parsed_chunks (text : string) :
  parse_response text = flat_map record_of_chunk (entries_of text) /\
  List.length (parse_response text) <= List.length (entries_of text).
Proof.
  unfold parse_response. rewrite entry_loop_flat_map.
  split; [reflexivity | apply flat_map_record_length].
Qed.

(** X2.  Every fetched document carries a title, a link, a year and a list
    of authors, so the survey builder never falls back on its defaults for
    it: the papers section of fetched documents is the section of their
    titles, years and summaries. *)
Theorem fetched_documents_have_every_key (text : string) :
  Forall (fun doc => exists t s l y a, doc = document t s l y a)
         (parse_response text) /\
  exists records,
    map record_view (parse_response text) = map Some records /\
    papers_text (parse_response text) = spec_section records.
Proof.
  assert (K : Forall (fun doc => exists t s l y a, doc = document t s l y a)
                     (parse_response text)).
  { apply fetched_all. intros entry doc H. apply parse_entry_Ok in H.
    destruct H as (t & s & l & y & a & _ & _ & ->). now exists t, s, l, y, a. }
  split; [exact K|].
  assert (R : exists records,
             map record_view (parse_response text) = map Some records).
  { induction K as [|doc docs (t & s & l & y & a & ->) _ [records IH]].
    - now exists [].
    - exists ((t, y, s) :: records). cbn [map]. now rewrite IH. }
  destruct R as [records R]. exists records.
  split; [exact R | now apply papers_text_records].
Qed.

(** X3.  The title, the summary, the link and the author names of a fetched
    document have no white space around them and hold neither their start
    nor their end delimiter. *)
Theorem fetched_text_fields_are_clean (text : string) :
  Forall (fun doc =>
            exists t s l y a,
              doc = document t s l y a /\
              clean "<title>" "</title>" t /\
              clean "<summary>" "</summary>" s /\
              clean "<id>" "</id>" l /\
              Forall (clean "<name>" "</name>") a)
         (parse_response text).
Proof.
  apply fetched_all. intros entry doc H. apply parse_entry_Ok in H.
  destruct H as (t & s & l & y & a & R & A & ->).
  apply required_fields_Ok in R. destruct R as (T & S & L & _).
  exists t, s, l, y, a. split; [reflexivity|].
  split; [eapply field_value_clean; [| |exact T]; discriminate|].
  split; [eapply field_value_clean; [| |exact S]; discriminate|].
  split; [eapply field_value_clean; [| |exact L]; discriminate|].
  apply author_loop_names in A.
  induction A as [|part name parts names F _ IH]; constructor; trivial.
  eapply field_value_clean; [| |exact F]; discriminate.
Qed.

(** X4.  The year of a fetched document is never negative: the characters
    before the first [-] hold no minus sign. *)
Theorem fetched_year_is_not_negative (text : string) :
  Forall (fun doc => exists y, year (metadata doc) = Some y /\ (0 <= y)%Z)
         (parse_response text).
Proof.
  apply fetched_all. intros entry doc H. apply parse_entry_Ok in H.
  destruct H as (t & s & l & y & a & R & _ & ->).
  apply required_fields_Ok in R. destruct R as (_ & _ & _ & p & _ & Y).
  exists y. split; [reflexivity|].
  exact (int_nonneg _ _ (before_first_dash_free p) Y).
Qed.

(** X5.  The authors of a parsed chunk are the names of its author blocks,
    one per block and in the order of the blocks. *)
Theorem authors_follow_the_author_blocks (entry : string) (doc : Document) :
  parse_entry entry = Ok doc ->
  exists names,
    authors (metadata doc) = Some names /\
    Forall2 (fun part name => field "<name>" "</name>" part = Ok name)
            (skipn 1 (Py.split "<author>" entry)) names /\
    List.length names = List.length (Py.split "<author>" entry) - 1.
Proof.
  intros H. apply parse_entry_Ok in H.
  destruct H as (t & s & l & y & a & _ & A & ->).
  exists a. apply author_loop_names in A.
  repeat split; trivial.
  rewrite <- (Forall2_length A), length_skipn. reflexivity.
Qed.

Lemma authors_follow_the_author_blocks_witness :
  exists names,
    authors (metadata (document "Graphene anodes" "S1"
                         "http://arxiv.org/abs/1" 2023 ["X"; "Y"]))
    = Some names /\
    Forall2 (fun part name => field "<name>" "</name>" part = Ok name)
            (skipn 1 (Py.split "<author>" entry_a)) names /\
    List.length names = List.length (Py.split "<author>" entry_a) - 1.
Proof.
  apply (authors_follow_the_author_blocks entry_a).
  vm_compute. reflexivity.
Defined.

(** X6.  What precedes the first entry marker is discarded: two responses
    that differ only there give the same papers. *)
Theorem preamble_is_discarded (preamble preamble' rest : string) :
  Py.contains "<entry>" preamble = false ->
  Py.contains "<entry>" preamble' = false ->
  entries_of (preamble ++ "<entry>" ++ rest) = Py.split "<entry>" rest /\
  parse_response (preamble ++ "<entry>" ++ rest)
  = parse_response (preamble' ++ "<entry>" ++ rest).
Proof.
  intros P P'.
  assert (E : forall p, Py.contains "<entry>" p = false ->
                entries_of (p ++ "<entry>" ++ rest) = Py.split "<entry>" rest).
  { intros p Hp. unfold entries_of. rewrite split_eq by discriminate.
    now rewrite (find_first "<" "entry>" p rest eq_refl Hp). }
  split; [now apply E|].
  unfold parse_response. now rewrite !E.
Qed.

Lemma preamble_is_discarded_witness :
  parse_response (preamble ++ "<entry>" ++ entry_c)
  = parse_response ("<entry>" ++ entry_c).
Proof.
  apply (preamble_is_discarded preamble EmptyString entry_c).
  - vm_compute. reflexivity.
  - vm_compute. reflexivity.
Defined.

(** X7.  The split loses nothing: the text before the first entry marker
    and the chunks, put back behind their markers, are the response. *)
Theorem response_reassembles (text : string) :
  response_of (upto "<entry>" text) (entries_of text) = text.
Proof.
  destruct (split_reassemble "<entry>" (String.length text) text)
    as (cs & E & R); [discriminate | apply le_n |].
  unfold response_of, entries_of, Py.split. rewrite E. exact R.
Qed.

(** X8.  Conversely, a response made of a preamble and chunks that hold no
    entry marker is cut back into these chunks, and its papers are the
    records of the chunks that parse. *)
Theorem chunks_of_an_assembled_response
  (preamble : string) (chunks : list string) :
  Py.contains "<entry>" preamble = false ->
  forallb (fun chunk => negb (Py.contains "<entry>" chunk)) chunks = true ->
  entries_of (response_of preamble chunks) = chunks /\
  parse_response (response_of preamble chunks)
  = flat_map record_of_chunk chunks.
Proof.
  intros P C. pose proof (entries_of_response _ _ P C) as E.
  split; [exact E|].
  unfold parse_response. now rewrite E, entry_loop_flat_map.
Qed.

Lemma chunks_of_an_assembled_response_witness :
  entries_of feed3 = [entry_a; entry_b; entry_c].
Proof.
  apply (chunks_of_an_assembled_response preamble [entry_a; entry_b; entry_c]).
  - vm_compute. reflexivity.
  - vm_compute. reflexivity.
Defined.

(** X9.  Nothing is deduplicated: a response that holds its chunks twice
    gives every paper twice. *)
Theorem repeated_chunks_give_repeated_papers
  (preamble : string) (chunks : list string) :
  Py.contains "<entry>" preamble = false ->
  forallb (fun chunk => negb (Py.contains "<entry>" chunk)) chunks = true ->
  parse_response (response_of preamble (chunks ++ chunks))
  = (parse_response (response_of preamble chunks)
     ++ parse_response (response_of preamble chunks))%list.
Proof.
  intros P C. unfold parse_response.
  rewrite !entries_of_response; trivial.
  - apply entry_loop_app.
  - now rewrite forallb_app, C.
Qed.

Lemma repeated_chunks_give_repeated_papers_witness :
  parse_response (response_of preamble ([entry_c] ++ [entry_c]))
  = [ document "C" "S3" "http://arxiv.org/abs/3" 2021 [];
      document "C" "S3" "http://arxiv.org/abs/3" 2021 [] ].
Proof.
  rewrite (repeated_chunks_give_repeated_papers preamble [entry_c]).
  - vm_compute. reflexivity.
  - vm_compute. reflexivity.
  - vm_compute. reflexivity.
Defined.

(** * Further properties of the exports *)

Section ExportFacts.

Variable paragraph : Type.
Variable Paragraph : string -> string -> result paragraph.
Variable doc_build : list (flowable paragraph) -> result string.
Variable docx : Type.
Variable docx_new : docx.
Variable add_paragraph : docx -> string -> result docx.
Variable save : docx -> result string.

Lemma pdf_loop_eq (lines : list string) (flow : list (flowable paragraph)) :
  pdf_loop paragraph Paragraph lines flow =
  (ps <- traverse (fun t => Paragraph t "Normal") (texts_of_lines lines) ;;
   Ok (flow ++ flat_map (fun p => [FParagraph p; FSpacer 1 8]) ps)%list)%result.
Proof.
  revert flow; induction lines as [|line rest IH]; intros flow.
  - cbn. now rewrite app_nil_r.
  - cbn [pdf_loop]. unfold texts_of_lines. cbn [filter].
    destruct (truthy (Py.strip line)); [|apply IH].
    cbn [map traverse].
    destruct (Paragraph (Py.strip line) "Normal") as [p|e]; cbn [rbind];
      [|reflexivity].
    rewrite IH. fold (texts_of_lines rest).
    destruct (traverse _ (texts_of_lines rest)) as [ps|e]; cbn [rbind]; [|reflexivity].
    cbn [flat_map]. now rewrite <- !app_assoc.
Qed.

Lemma word_loop_eq (lines : list string) (doc : docx) :
  word_loop docx add_paragraph lines doc
  = add_all add_paragraph doc (texts_of_lines lines).
Proof.
  revert doc; induction lines as [|line rest IH]; intros doc; [reflexivity|].
  cbn [word_loop]. unfold texts_of_lines. cbn [filter].
  destruct (truthy (Py.strip line)); [|apply IH].
  cbn [map add_all].
  destruct (add_paragraph doc (Py.strip line)) as [d|e]; cbn [rbind];
    [apply IH | reflexivity].
Qed.

(** X10.  The PDF export builds, for each line that is not blank and in the
    order of the lines, a paragraph of the stripped line in the Normal style
    followed by a spacer of 1 by 8, and lays out that flow; the first
    exception of a paragraph or of the layout is what it raises. *)
Theorem export_to_pdf_flow (text : string) :
  export_to_pdf paragraph Paragraph doc_build text =
  (ps <- traverse (fun t => Paragraph t "Normal") (paragraph_texts text) ;;
   doc_build (flat_map (fun p => [FParagraph p; FSpacer 1 8]) ps))%result.
Proof.
  unfold export_to_pdf. rewrite pdf_loop_eq. fold (paragraph_texts text).
  now destruct (traverse _ (paragraph_texts text)).
Qed.

(** X11.  The Word export adds to a new document, for each line that is not
    blank and in the order of the lines, a paragraph of the stripped line,
    and saves the document: the same texts as the PDF export. *)
Theorem export_to_word_paragraphs (text : string) :
  export_to_word docx docx_new add_paragraph save text =
  (doc <- add_all add_paragraph docx_new (paragraph_texts text) ;;
   save doc)%result.
Proof. unfold export_to_word. now rewrite word_loop_eq. Qed.

End ExportFacts.

Lemma truthy_nonempty (s : string) : truthy s = true <-> s <> EmptyString.
Proof. destruct s; simpl; split; intros; congruence. Qed.

(** X12.  No paragraph of an export is empty, has white space around it or
    holds a line break, and there are no more paragraphs than lines. *)
Theorem paragraph_texts_are_trimmed_lines (text : string) :
  Forall (fun t => t <> EmptyString /\ Py.strip t = t /\
                   Py.contains nl t = false)
         (paragraph_texts text) /\
  List.length (paragraph_texts text) <= List.length (Py.split nl text).
Proof.
  unfold paragraph_texts, texts_of_lines. split.
  - apply Forall_forall. intros t I. apply in_map_iff in I.
    destruct I as (line & <- & I). apply filter_In in I. destruct I as [I T].
    split; [now apply truthy_nonempty|]. split; [apply strip_idem|].
    pose proof (split_free nl text) as F.
    rewrite Forall_forall in F. specialize (F ltac:(discriminate) line I).
    destruct (strip_inside line) as (l & r & S).
    apply (contains_inside nl l _ r). now rewrite <- S.
  - rewrite length_map. apply filter_length_le.
Qed.

(** ** Blank text *)

Lemma all_space_app (a b : string) :
  all_space (a ++ b) = all_space a && all_space b.
Proof.
  induction a as [|c a IH]; [reflexivity|].
  cbn [append all_space]. now rewrite IH, andb_assoc.
Qed.

Lemma lstrip_empty (s : string) :
  Py.lstrip s = EmptyString <-> all_space s = true.
Proof.
  induction s as [|c s IH]; [now split|].
  cbn [Py.lstrip all_space]. destruct (Py.is_space c); [exact IH|].
  split; discriminate.
Qed.

Lemma strip_empty (s : string) :
  Py.strip s = EmptyString <-> all_space s = true.
Proof.
  rewrite <- lstrip_empty. unfold Py.strip. split.
  - intros H. destruct (lstrip_head s) as [E|(c & t & E & N)]; [exact E|].
    rewrite E in H. destruct (rstrip_head c t N) as [r R].
    rewrite R in H. discriminate.
  - now intros ->.
Qed.

Lemma pieces_of_blank (sep : string) (n : nat) (s : string) :
  all_space s = true ->
  Forall (fun piece => all_space piece = true) (Py.split_fuel n sep s).
Proof.
  revert s; induction n as [|n IH]; intros s H.
  - constructor; [exact H | constructor].
  - cbn [Py.split_fuel]. destruct (Py.find sep s) as [[a b]|] eqn:F.
    + apply find_Some in F. subst s.
      rewrite !all_space_app, !andb_true_iff in H.
      destruct H as (A & _ & B). constructor; [exact A | now apply IH].
    + constructor; [exact H | constructor].
Qed.

Lemma blank_of_pieces (cs : list string) :
  Forall (fun piece => all_space piece = true) cs ->
  all_space (fold_right (fun c t => nl ++ c ++ t) EmptyString cs) = true.
Proof.
  induction 1 as [|c cs C _ IH]; [reflexivity|].
  cbn [fold_right]. now rewrite !all_space_app, C, IH.
Qed.

Lemma paragraph_texts_nil (text : string) :
  paragraph_texts text = [] <-> Py.strip text = EmptyString.
Proof.
  rewrite strip_empty. unfold paragraph_texts, texts_of_lines. split.
  - intros H. apply map_eq_nil in H.
    assert (B : Forall (fun piece => all_space piece = true)
                       (Py.split nl text)).
    { apply Forall_forall. intros line I. apply strip_empty.
      destruct (Py.strip line) eqn:S; [reflexivity|].
      assert (J : In line (filter (fun line => truthy (Py.strip line))
                                  (Py.split nl text))).
      { apply filter_In. split; [exact I | now rewrite S]. }
      rewrite H in J. destruct J. }
    destruct (split_reassemble nl (String.length text) text)
      as (cs & E & R); [discriminate | apply le_n |].
    unfold Py.split in B. rewrite E in B. inversion B as [|p ps Hp Hcs]; subst.
    rewrite <- R, all_space_app, Hp. now apply blank_of_pieces.
  - intros H. apply (pieces_of_blank nl (String.length text)) in H.
    fold (Py.split nl text) in H.
    induction H as [|line lines L _ IH]; [reflexivity|].
    cbn [filter]. apply strip_empty in L. now rewrite L.
Qed.

(** X13.  An export has no paragraph exactly when the text is white space
    only; the PDF export then lays out the empty flow and the Word export
    saves the new document. *)
Theorem blank_text_gives_an_empty_document (text : string) :
  (paragraph_texts text = [] <-> Py.strip text = EmptyString) /\
  (Py.strip text = EmptyString ->
   forall (paragraph : Type) (Paragraph : string -> string -> result paragraph)
          (doc_build : list (flowable paragraph) -> result string)
          (docx : Type) (docx_new : docx)
          (add_paragraph : docx -> string -> result docx)
          (save : docx -> result string),
     export_to_pdf paragraph Paragraph doc_build text = doc_build [] /\
     export_to_word docx docx_new add_paragraph save text = save docx_new).
Proof.
  split; [apply paragraph_texts_nil|].
  intros H paragraph Paragraph doc_build docx docx_new add_paragraph save.
  apply paragraph_texts_nil in H.
  rewrite export_to_pdf_flow, export_to_word_paragraphs, H. now split.
Qed.

Lemma blank_text_gives_an_empty_document_witness :
  export_to_pdf string keep_text show_flow (" " ++ nl ++ nl ++ "  ")
  = show_flow [] /\
  export_to_word (list string) [] keep_added show_doc (" " ++ nl ++ nl ++ "  ")
  = show_doc [].
Proof.
  apply (blank_text_gives_an_empty_document (" " ++ nl ++ nl ++ "  ")).
  reflexivity.
Defined.

(** * Further properties of the pipeline *)

Lemma snoc_differs {A : Type} (l : list A) (x : A) : (l ++ [x])%list <> l.
Proof.
  intros H. apply (f_equal (@List.length A)) in H.
  rewrite List.length_app in H. simpl in H. lia.
Qed.

(** X14.  Whatever the network and the model answer, [main] sends one
    request and calls the model at most once. *)
Theorem main_calls_each_service_at_most_once
  (network : World -> Request -> result string)
  (llm : World -> string -> result AIMessage)
  (topic : string) (n_fetch top_k : Z) (sort_by : string) (w : World) :
  let outcome := main network llm topic n_fetch top_k sort_by w in
  requests_log (snd outcome)
  = (requests_log w ++ [arxiv_request topic n_fetch sort_by])%list /\
  (llm_log (snd outcome) = llm_log w \/
   exists prompt, llm_log (snd outcome) = (llm_log w ++ [prompt])%list).
Proof.
  cbv zeta. rewrite main_eq. cbv zeta.
  destruct (network w _) as [text|e]; [|split; [reflexivity | now left]].
  destruct (parse_response text) as [|d ds];
    [split; [reflexivity | now left]|].
  split; [reflexivity|]. right. eexists. reflexivity.
Qed.

(** X15.  The model is called only when the response gave a paper.  With
    no paper [main] ends on the page that says so, the model not called; an
    exception of the request ends [main] with that exception, the model not
    called. *)
Theorem model_is_never_called_without_papers
  (network : World -> Request -> result string)
  (llm : World -> string -> result AIMessage)
  (topic : string) (n_fetch top_k : Z) (sort_by : string) (w : World) :
  let request := arxiv_request topic n_fetch sort_by in
  let outcome := main network llm topic n_fetch top_k sort_by w in
  (forall prompt,
      llm_log (snd outcome) = (llm_log w ++ [prompt])%list ->
      exists text, network w request = Ok text /\ parse_response text <> []) /\
  (fst outcome = Ok NoPapersFound <->
   exists text, network w request = Ok text /\ parse_response text = []) /\
  (forall text,
      network w request = Ok text -> parse_response text = [] ->
      outcome = (Ok NoPapersFound, after_request w request)) /\
  (forall e, network w request = Raise e ->
             outcome = (Raise e, after_request w request)).
Proof.
  cbv zeta. rewrite main_eq. cbv zeta.
  destruct (network w _) as [text|e].
  - destruct (parse_response text) as [|d ds] eqn:P.
    + split; [|split; [|split]].
      * intros prompt H. cbn [snd after_request llm_log] in H.
        symmetry in H. now apply snoc_differs in H.
      * split; [intros _; now exists text | reflexivity].
      * reflexivity.
      * discriminate.
    + split; [|split; [|split]].
      * intros prompt _. exists text. split; [reflexivity | now rewrite P].
      * split.
        -- cbn [fst]. destruct (llm _ _); discriminate.
        -- intros (text' & [= <-] & H). congruence.
      * intros text' [= <-] H. congruence.
      * discriminate.
  - split; [|split; [|split]].
    + intros prompt H. cbn [snd after_request llm_log] in H.
      symmetry in H. now apply snoc_differs in H.
    + split; [discriminate | intros (text & H & _); discriminate].
    + discriminate.
    + now intros e' [= <-].
Qed.

Lemma model_is_never_called_without_papers_witness :
  main (answers "<feed></feed>") echo "graphene batteries" 15 5 "relevance"
    empty_world
  = (Ok NoPapersFound,
     after_request empty_world
       (arxiv_request "graphene batteries" 15 "relevance"))
  /\ main times_out echo "graphene batteries" 15 5 "relevance" empty_world
     = (Raise (Foreign "requests.exceptions.ConnectTimeout"),
        after_request empty_world
          (arxiv_request "graphene batteries" 15 "relevance"))
  /\ exists text,
       answers feed3 empty_world
         (arxiv_request "graphene batteries" 15 "relevance") = Ok text /\
       parse_response text <> [].
Proof.
  split; [|split].
  - destruct (model_is_never_called_without_papers
                (answers "<feed></feed>") echo "graphene batteries" 15 5
                "relevance" empty_world) as (_ & _ & H & _).
    apply (H "<feed></feed>"); reflexivity.
  - apply (model_is_never_called_without_papers times_out echo
             "graphene batteries" 15 5 "relevance" empty_world).
    reflexivity.
  - destruct (model_is_never_called_without_papers
                (answers feed3) echo "graphene batteries" 15 5
                "relevance" empty_world) as (H & _).
    eapply H. vm_compute. reflexivity.
Defined.

(** X16.  With a top-K that is not negative, the model gets the first top-K
    papers, in their order, or all of them when they are fewer; the page
    still counts every retrieved paper. *)
Theorem first_top_k_papers_reach_the_model
  (network : World -> Request -> result string)
  (llm : World -> string -> result AIMessage)
  (topic : string) (n_fetch top_k : Z) (sort_by : string) (w : World)
  (text : string) :
  network w (arxiv_request topic n_fetch sort_by) = Ok text ->
  parse_response text <> [] ->
  (0 <= top_k)%Z ->
  let papers := parse_response text in
  let given := firstn (Z.to_nat top_k) papers in
  let w1 := after_request w (arxiv_request topic n_fetch sort_by) in
  let prompt := prompt_of (papers_text given) topic in
  List.length given = Nat.min (Z.to_nat top_k) (List.length papers) /\
  main network llm topic n_fetch top_k sort_by w
  = (match llm w1 prompt with
     | Ok message => Ok (SurveyDraft (List.length papers) (content message))
     | Raise e => Raise e
     end,
     after_llm_call w1 prompt).
Proof.
  intros N P K. cbv zeta. split; [apply length_firstn|].
  rewrite main_eq, N. cbv zeta.
  destruct (parse_response text) as [|d ds]; [congruence|].
  unfold Py.slice_to. apply Z.leb_le in K. now rewrite K.
Qed.

Lemma first_top_k_papers_reach_the_model_witness :
  fst (main (answers feed3) echo "graphene batteries" 15 1 "relevance"
         empty_world)
  = Ok (SurveyDraft 2
          ("Survey of: "
           ++ prompt_of ("Title: Graphene anodes (2023)" ++ nl
                         ++ "Summary: S1")
                "graphene batteries")).
Proof.
  destruct (first_top_k_papers_reach_the_model (answers feed3) echo
              "graphene batteries" 15 1 "relevance" empty_world feed3)
    as [_ M].
  - reflexivity.
  - vm_compute. discriminate.
  - lia.
  - rewrite M. vm_compute. reflexivity.
Defined.

(** X17.  Only the title, the year and the summary of a document reach the
    model: documents that agree on these three give the same call, whatever
    their links and authors. *)
Theorem links_and_authors_stay_out_of_the_prompt
  (query : string) (docs docs' : list Document)
  (llm : World -> string -> result AIMessage) (w : World) :
  Forall2 (fun d d' => title (metadata d) = title (metadata d') /\
                       year (metadata d) = year (metadata d') /\
                       page_content d = page_content d') docs docs' ->
  papers_text docs = papers_text docs' /\
  build_survey_text query docs llm w = build_survey_text query docs' llm w.
Proof.
  intros H.
  assert (E : papers_text docs = papers_text docs').
  { unfold papers_text. f_equal.
    induction H as [|d d' ds ds' (T & Y & S) _ IH]; [reflexivity|].
    cbn [map]. rewrite IH. f_equal.
    unfold block, get_title, get_year. now rewrite T, Y, S. }
  split; [exact E|]. now rewrite !build_survey_eq, E.
Qed.

Lemma links_and_authors_stay_out_of_the_prompt_witness :
  papers_text [document "A" "S" "http://arxiv.org/abs/1" 2020 ["X"]]
  = papers_text [document "A" "S" "http://arxiv.org/abs/2" 2020 []].
Proof.
  apply (links_and_authors_stay_out_of_the_prompt "graphene batteries"
           [document "A" "S" "http://arxiv.org/abs/1" 2020 ["X"]]
           [document "A" "S" "http://arxiv.org/abs/2" 2020 []]
           echo empty_world).
  constructor; [|constructor]. repeat split.
Defined.

(** * Well-formed responses *)

(** ** Tags and plain text *)

Lemma find_through_plain (tl v x : string) :
  has_char "<" v = false ->
  Py.find (String "<" tl) (v ++ x) =
  match Py.find (String "<" tl) x with
  | Some (a, b) => Some (v ++ a, b)
  | None => None
  end.
Proof.
  induction v as [|c v IH]; intros H.
  - cbn [append]. now destruct (Py.find _ x) as [[a b]|].
  - cbn [has_char] in H. apply orb_false_iff in H. destruct H as [Hc H].
    change (String c v ++ x) with (String c (v ++ x)).
    rewrite find_unfold. cbn [Py.strip_prefix]. rewrite Hc, (IH H).
    now destruct (Py.find _ x) as [[a b]|].
Qed.

Lemma plain_has_no_tag (tl v : string) :
  has_char "<" v = false -> Py.contains (String "<" tl) v = false.
Proof.
  intros H. apply contains_false_find.
  rewrite <- (append_empty_r v), (find_through_plain _ _ _ H).
  now rewrite find_empty.
Qed.

Lemma upto_through_plain (tl v x : string) :
  has_char "<" v = false ->
  upto (String "<" tl) (v ++ x) = v ++ upto (String "<" tl) x.
Proof.
  intros H. unfold upto. rewrite (find_through_plain _ _ _ H).
  now destruct (Py.find _ x) as [[a b]|].
Qed.

Lemma upto_past_tag (otl ctl x : string) :
  has_char "<" ctl = false ->
  Py.strip_prefix otl (ctl ++ x) = None ->
  upto (String "<" otl) (String "<" ctl ++ x)
  = String "<" ctl ++ upto (String "<" otl) x.
Proof.
  intros C N. unfold upto.
  change (String "<" ctl ++ x) with (String "<" (ctl ++ x)).
  rewrite find_unfold. cbn [Py.strip_prefix]. rewrite Ascii.eqb_refl, N.
  rewrite (find_through_plain _ _ _ C).
  now destruct (Py.find _ x) as [[a b]|].
Qed.

(** A field that is present is extracted: the value, stripped. *)
Lemma field_of_holds (otl ctl value chunk : string) :
  has_char "<" otl = false -> has_char "<" ctl = false ->
  (forall x, Py.strip_prefix otl (ctl ++ x) = None) ->
  holds (String "<" otl) (String "<" ctl) value chunk ->
  field (String "<" otl) (String "<" ctl) chunk = Ok (Py.strip value).
Proof.
  intros O C N (before & after & -> & B & V).
  rewrite field_eq by discriminate.
  rewrite (find_first "<" otl before _ O B).
  rewrite (upto_through_plain _ _ _ V), (upto_past_tag _ _ _ C (N _)).
  unfold upto at 1.
  rewrite (find_first "<" ctl value _ C (plain_has_no_tag ctl value V)).
  reflexivity.
Qed.

Lemma split_assembled (tl head : string) (blocks : list string) :
  has_char "<" tl = false ->
  Py.contains (String "<" tl) head = false ->
  Forall (fun block => Py.contains (String "<" tl) block = false) blocks ->
  Py.split (String "<" tl) (assemble (String "<" tl) head blocks)
  = head :: blocks.
Proof.
  intros T H F. unfold assemble. revert head H.
  induction F as [|block blocks B _ IH]; intros head H.
  - cbn [fold_right]. rewrite append_empty_r.
    apply split_absent; [discriminate | exact H].
  - cbn [fold_right]. rewrite split_eq by discriminate.
    rewrite (find_first "<" tl head _ T H). f_equal. now apply IH.
Qed.

(** ** From the description to the record *)

Lemma author_loop_of_names (bodies names : list string) :
  Forall2 (fun body name =>
             Py.contains "<author>" body = false /\
             holds "<name>" "</name>" name body) bodies names ->
  author_loop bodies [] = Ok (map Py.strip names).
Proof.
  induction 1 as [|body name bodies names [_ H] _ IH]; [reflexivity|].
  cbn [author_loop map].
  rewrite (field_of_holds "name>" "/name>" name body eq_refl eq_refl
             (fun _ => eq_refl) H).
  cbn [rbind]. now rewrite author_loop_acc, IH.
Qed.

Lemma parse_entry_of_description (chunk : string) (r : PaperRecord) :
  describes chunk r -> parse_entry chunk = Ok (document_of r).
Proof.
  intros ((t & T & Et) & (s & S & Es) & (l & L & El) & (p & P & Y)
          & (head & bodies & names & C & H & A & Ea)).
  apply parse_entry_Ok.
  exists (pr_title r), (pr_summary r), (pr_link r), (publishedYear r),
         (pr_authors r).
  split; [|split; [|reflexivity]].
  - apply required_fields_Ok. rewrite Et, Es, El.
    split; [exact (field_of_holds "title>" "/title>" _ _ eq_refl eq_refl
                     (fun _ => eq_refl) T)|].
    split; [exact (field_of_holds "summary>" "/summary>" _ _ eq_refl eq_refl
                     (fun _ => eq_refl) S)|].
    split; [exact (field_of_holds "id>" "/id>" _ _ eq_refl eq_refl
                     (fun _ => eq_refl) L)|].
    exists (Py.strip p).
    split; [exact (field_of_holds "published>" "/published>" _ _ eq_refl
                     eq_refl (fun _ => eq_refl) P) | exact Y].
  - rewrite C, (split_assembled "author>" head bodies eq_refl H).
    + cbn [skipn]. rewrite Ea. now apply author_loop_of_names.
    + clear -A. induction A as [|b n bs ns [B _] _ IH]; constructor; trivial.
Qed.

Lemma entry_loop_of_descriptions (chunks : list string)
  (records : list PaperRecord) :
  Forall2 describes chunks records ->
  entry_loop chunks [] = map document_of records.
Proof.
  induction 1 as [|chunk r chunks records D _ IH]; [reflexivity|].
  rewrite (entry_loop_keep _ _ _ _ (parse_entry_of_description _ _ D)).
  rewrite entry_loop_acc, IH. reflexivity.
Qed.

(** Finds the text before and after a field of a sample chunk. *)
Ltac present :=
  match goal with
  | |- holds ?o ?c ?v ?chunk =>
      let f := eval vm_compute in (Py.find o chunk) in
      match f with
      | Some (?b, ?rest) =>
          let g := eval vm_compute in (Py.find c rest) in
          match g with
          | Some (_, ?a) =>
              exists b, a; split; [|split]; vm_compute; reflexivity
          end
      end
  end.

Lemma describes_entry_a : describes entry_a record_a.
Proof.
  split; [exists " Graphene anodes "; split; [present | reflexivity]|].
  split; [exists "S1"; split; [present | reflexivity]|].
  split; [exists "http://arxiv.org/abs/1"; split; [present | reflexivity]|].
  split; [exists "2023-05-10T00:00:00Z"; split; [present | reflexivity]|].
  exists (upto "<author>" entry_a),
         ["<name>X</name></author>"; "<name>Y</name></author></entry>"],
         ["X"; "Y"].
  split; [vm_compute; reflexivity|]. split; [vm_compute; reflexivity|].
  split; [|reflexivity].
  constructor; [split; [reflexivity | present]|].
  constructor; [split; [reflexivity | present]|]. constructor.
Qed.

Lemma describes_entry_c : describes entry_c record_c.
Proof.
  split; [exists "C"; split; [present | reflexivity]|].
  split; [exists "S3"; split; [present | reflexivity]|].
  split; [exists "http://arxiv.org/abs/3"; split; [present | reflexivity]|].
  split; [exists "2021-01-01T00:00:00Z"; split; [present | reflexivity]|].
  exists entry_c, [], [].
  split; [vm_compute; reflexivity|]. split; [vm_compute; reflexivity|].
  split; [constructor | reflexivity].
Qed.

(** C3, as amended.  A response is a preamble followed by N entry blocks
    behind their markers.  When each block is the entry block of a record
    (the required fields present, the published date starting with the
    year, and every author block holding a name), the fetcher returns the N
    records, in the order of the blocks. *)
Theorem fetch_returns_the_described_records
  (network : World -> Request -> result string)
  (query : string) (max_results : Z) (sort_by : string) (w : World)
  (preamble : string) (chunks : list string) (records : list PaperRecord) :
  network w (arxiv_request query max_results sort_by)
  = Ok (response_of preamble chunks) ->
  Py.contains "<entry>" preamble = false ->
  forallb (fun chunk => negb (Py.contains "<entry>" chunk)) chunks = true ->
  Forall2 describes chunks records ->
  fst (fetch_arxiv_papers network query max_results sort_by w)
  = Ok (map document_of records) /\
  List.length (map document_of records) = List.length chunks.
Proof.
  intros N P C D. split.
  - rewrite fetch_eq, N. cbn [fst]. f_equal. unfold parse_response.
    rewrite (entries_of_response _ _ P C).
    now apply entry_loop_of_descriptions.
  - rewrite length_map. symmetry. exact (Forall2_length D).
Qed.

Lemma fetch_returns_the_described_records_witness :
  fst (fetch_arxiv_papers (answers feed2) "graphene batteries" 15 "relevance"
         empty_world)
  = Ok [ document "Graphene anodes" "S1" "http://arxiv.org/abs/1" 2023
           ["X"; "Y"];
         document "C" "S3" "http://arxiv.org/abs/3" 2021 [] ].
Proof.
  apply (fetch_returns_the_described_records (answers feed2)
           "graphene batteries" 15 "relevance" empty_world
           preamble [entry_a; entry_c] [record_a; record_c]).
  - reflexivity.
  - vm_compute. reflexivity.
  - vm_compute. reflexivity.
  - constructor; [exact describes_entry_a|].
    constructor; [exact describes_entry_c | constructor].
Defined.

(** C3, as stated, fails: a response of one entry block with the four
    required fields and a year that parses gives no record when an author
    block holds no name. *)
Lemma required_fields_alone_do_not_keep_the_entry :
  entries_of (response_of preamble [entry_unnamed_author])
  = [entry_unnamed_author] /\
  holds "<title>" "</title>" "T" entry_unnamed_author /\
  holds "<summary>" "</summary>" "S" entry_unnamed_author /\
  holds "<id>" "</id>" "I" entry_unnamed_author /\
  holds "<published>" "</published>" "2020-01-01" entry_unnamed_author /\
  Py.int (before_first_dash "2020-01-01") = Ok 2020%Z /\
  fst (fetch_arxiv_papers
         (answers (response_of preamble [entry_unnamed_author]))
         "graphene batteries" 15 "relevance" empty_world)
  = Ok [].
Proof.
  split; [vm_compute; reflexivity|].
  split; [present|]. split; [present|]. split; [present|]. split; [present|].
  split; reflexivity.
Qed.
